(** * threeML minimizer: MIGRAD binding, convergence retries and contours

    A shallow embedding of [threeML/minimizer/minimization.py]:
    the [MinuitMinimizer] class (constructor, convergence check, retry loop,
    best-fit store, asymmetric errors, contours) and the [ContourWorker]
    class that evaluates one grid point of a contour.

    Numbers are IEEE binary64 values (Rocq's primitive floats), as Python's
    [float] is.  Python dictionaries are [gmap]s, ordered dictionaries are
    association lists, exceptions are the [Raise] case of [result].  The
    iminuit engine is an external collaborator: its numerical passes are the
    operations of the [Engine] class, everything the Python code itself does
    with an engine (keyword arguments, tolerance, error definition, fixed
    parameters) is written out. *)

From Stdlib Require Import PrimFloat Uint63 ZArith Ascii.
From stdpp Require Import gmap strings list.

Set Warnings "-inexact-float".
Open Scope float_scope.

(** ** Python values, exceptions and results *)

Inductive exn : Type :=
| TypeError (msg : string)
| KeyError (key : string)
| IndexError
| ValueError
| SyntaxError (msg : string)
| AssertionError (msg : string)
| CannotComputeCovariance (msg : string)
| CannotComputeErrors (msg : string)
| MINOSFailed (msg : string)
| ParameterIsNotFree (msg : string)
| RemoteError
| EngineError (code : nat).

Inductive result (A : Type) : Type :=
| Ok (a : A)
| Raise (e : exn).
Arguments Ok {A} a.
Arguments Raise {A} e.

#[global] Instance result_ret : MRet result := fun A a => Ok a.

#[global] Instance result_bind : MBind result := fun A B k c =>
  match c with
  | Ok a => k a
  | Raise e => Raise e
  end.

Definition is_ok {A} (r : result A) : bool :=
  match r with Ok _ => true | Raise _ => false end.

Definition from_ok {A} (r : result A) : is_ok r = true -> A :=
  match r with
  | Ok a => fun _ => a
  | Raise _ => fun H => match Bool.diff_false_true H with end
  end.

(** Values that occur in the keyword dictionaries handed to the engine. *)
Inductive pyval : Type :=
| PyNone
| PyBool (b : bool)
| PyInt (z : Z)
| PyFloat (x : float)
| PyTuple2 (a b : pyval).

Definition py_of_bound (b : option float) : pyval :=
  match b with
  | Some x => PyFloat x
  | None => PyNone
  end.

(** Special constants *)
Definition FIT_FAILED : float := 1e12.

(** ** Parameter names *)

(** Python's [str.replace(old, new)] for one-character [old] and [new]. *)
Fixpoint replace (old new : ascii) (s : string) : string :=
  match s with
  | EmptyString => EmptyString
  | String c rest =>
      String (if Ascii.eqb c old then new else c) (replace old new rest)
  end.

Definition _parameter_name_to_minuit_name (parameter : string) : string :=
  replace "." "_" parameter.

Fixpoint has_char (c : ascii) (s : string) : bool :=
  match s with
  | EmptyString => false
  | String d rest => Ascii.eqb d c || has_char c rest
  end.

(** ** The parameter registry *)

Record Par : Type := mkPar {
  value : float;
  delta : float;
  min_value : option float;
  max_value : option float;
  par_unit : string
}.

Definition set_value (par : Par) (v : float) : Par :=
  {| value := v; delta := delta par; min_value := min_value par;
     max_value := max_value par; par_unit := par_unit par |}.

(** An [OrderedDict]: insertion order is the calling-sequence order. *)
Abbreviation odict V := (list (string * V)).

Definition keys {V} (d : odict V) : list string := fst <$> d.

Fixpoint od_get {V} (d : odict V) (k : string) : option V :=
  match d with
  | [] => None
  | (k', v) :: rest => if String.eqb k' k then Some v else od_get rest k
  end.

Fixpoint od_set {V} (d : odict V) (k : string) (v : V) : odict V :=
  match d with
  | [] => [(k, v)]
  | (k', v') :: rest =>
      if String.eqb k' k then (k', v) :: rest else (k', v') :: od_set rest k v
  end.



(** ** The objective function as the engine sees it

    [__init__] compiles [def _f(self, n1, ..., nk): return self.function(n1, ..., nk)]
    so that the engine can probe the argument names; calling it with another
    number of positional arguments is a [TypeError]. *)

Record ObjFun : Type := mkObjFun {
  arg_names : list string;
  body : list float -> result float
}.

Definition call (f : ObjFun) (args : list float) : result float :=
  if decide (length args = length (arg_names f))
  then body f args
  else Raise (TypeError "_f() called with a wrong number of arguments").

(** Python 2 identifiers and keywords, for the [exec] of the generated code. *)
Definition is_letter (c : ascii) : bool :=
  let n := nat_of_ascii c in
  ((65 <=? n)%nat && (n <=? 90)%nat) || ((97 <=? n)%nat && (n <=? 122)%nat)
  || Ascii.eqb c "_".

Definition is_digit (c : ascii) : bool :=
  let n := nat_of_ascii c in (48 <=? n)%nat && (n <=? 57)%nat.

Fixpoint all_chars (p : ascii -> bool) (s : string) : bool :=
  match s with
  | EmptyString => true
  | String c rest => p c && all_chars p rest
  end.

Definition python_keywords : list string :=
  ["and"; "as"; "assert"; "break"; "class"; "continue"; "def"; "del"; "elif";
   "else"; "except"; "exec"; "finally"; "for"; "from"; "global"; "if";
   "import"; "in"; "is"; "lambda"; "not"; "or"; "pass"; "print"; "raise";
   "return"; "try"; "while"; "with"; "yield"; "None"].

Definition is_identifier (s : string) : bool :=
  match s with
  | EmptyString => false
  | String c rest =>
      is_letter c && all_chars (fun d => is_letter d || is_digit d) rest
      && bool_decide (s ∉ python_keywords)
  end.

(** [exec code]: the generated [def] is rejected when an argument name is not
    an identifier or when two arguments (including [self]) share a name. *)
Definition exec_def (names : list string) : result unit :=
  if forallb is_identifier names && bool_decide (NoDup ("self" :: names))
  then Ok tt
  else Raise (SyntaxError "invalid or duplicate argument in function definition").

(** ** The engine (iminuit's [Minuit]) *)

(** What a numerical pass produces; [internal] is the engine's hidden state. *)
Record Numerics (Core : Type) : Type := mkNumerics {
  n_edm : float;
  n_fval : float;
  n_errors : gmap string float;
  n_covariance : option (gmap (string * string) float);
  n_merrors : gmap (string * Z) float;
  internal : Core
}.
Arguments mkNumerics {Core}.
Arguments n_edm {Core}.
Arguments n_fval {Core}.
Arguments n_errors {Core}.
Arguments n_covariance {Core}.
Arguments n_merrors {Core}.
Arguments internal {Core}.

Record Minuit (Core : Type) : Type := mkMinuit {
  fcn : ObjFun;
  kwargs : gmap string pyval;
  values : gmap string float;
  errordef : float;
  print_level : pyval;
  tol : float;
  strategy : Z;
  num : Numerics Core
}.
Arguments mkMinuit {Core}.
Arguments fcn {Core}.
Arguments kwargs {Core}.
Arguments values {Core}.
Arguments errordef {Core}.
Arguments print_level {Core}.
Arguments tol {Core}.
Arguments strategy {Core}.
Arguments num {Core}.

Section EngineState.
Context {C : Type}.

Definition edm (m : Minuit C) : float := n_edm (num m).
Definition fval (m : Minuit C) : float := n_fval (num m).
Definition merrors (m : Minuit C) : gmap (string * Z) float := n_merrors (num m).
Definition covariance (m : Minuit C) := n_covariance (num m).

Definition set_tol (m : Minuit C) (t : float) : Minuit C :=
  mkMinuit (fcn m) (kwargs m) (values m) (errordef m) (print_level m) t
    (strategy m) (num m).

Definition set_errordef (m : Minuit C) (u : float) : Minuit C :=
  mkMinuit (fcn m) (kwargs m) (values m) u (print_level m) (tol m)
    (strategy m) (num m).

Definition set_strategy (m : Minuit C) (s : Z) : Minuit C :=
  mkMinuit (fcn m) (kwargs m) (values m) (errordef m) (print_level m) (tol m)
    s (num m).

Definition set_values (m : Minuit C) (vs : gmap string float) : Minuit C :=
  mkMinuit (fcn m) (kwargs m) vs (errordef m) (print_level m) (tol m)
    (strategy m) (num m).

Definition set_num (m : Minuit C) (vs : gmap string float)
    (n : Numerics C) : Minuit C :=
  mkMinuit (fcn m) (kwargs m) vs (errordef m) (print_level m) (tol m)
    (strategy m) n.

(** [m.fitarg]: the keywords of the parameters with the current values and
    errors written back; [errordef] and [print_level] are not part of it. *)
Definition fitarg (m : Minuit C) : gmap string pyval :=
  fold_left
    (fun d n =>
       let d := match values m !! n with
                | Some v => <[n := PyFloat v]> d
                | None => d
                end in
       match n_errors (num m) !! n with
       | Some e => <["error_" +:+ n := PyFloat e]> d
       | None => d
       end)
    (arg_names (fcn m))
    (delete "errordef" (delete "print_level" (kwargs m))).

Definition is_fixed (m : Minuit C) (name : string) : bool :=
  match kwargs m !! ("fix_" +:+ name) with
  | Some (PyBool b) => b
  | _ => false
  end.

Definition list_of_vary_param (m : Minuit C) : list string :=
  filter (fun n => is_fixed m n = false) (arg_names (fcn m)).

End EngineState.

(** The external collaborator.  [engine_init] validates the keywords and
    builds the initial numerical state; a pass reads the whole engine and
    returns new parameter values and numerics, or raises.  [has_up] tells
    whether the engine has the attribute [up] (SEAL Minuit) or only
    [errordef] (iminuit): both name the error-definition scale. *)
Class Engine : Type := {
  Core : Type;
  engine_init : ObjFun -> gmap string pyval -> result (Numerics Core);
  migrad_pass : Minuit Core -> result (gmap string float * Numerics Core);
  hesse_pass : Minuit Core -> result (gmap string float * Numerics Core);
  minos_pass : Minuit Core -> result (gmap string float * Numerics Core);
  has_up : bool;
  default_errordef : float;
  default_tol : float;
  default_strategy : Z
}.

Section EngineBinding.
Context {E : Engine}.

(** [m.up = u]: an [AttributeError] on engines without [up]. *)
Definition set_up (m : Minuit Core) (u : float) : option (Minuit Core) :=
  if has_up then Some (set_errordef m u) else None.

(** [Minuit(f, **kw)]: the start values, the error definition and the print
    level come from the keywords. *)
Definition initial_value (kw : gmap string pyval) (name : string) : float :=
  match kw !! name with
  | Some (PyFloat x) => x
  | _ => 0
  end.

Definition initial_values (names : list string) (kw : gmap string pyval)
    : gmap string float :=
  fold_left (fun vs n => <[n := initial_value kw n]> vs) names ∅.

Definition Minuit_new (f : ObjFun) (kw : gmap string pyval)
    : result (Minuit Core) :=
  n ← engine_init f kw;
  Ok (mkMinuit f kw (initial_values (arg_names f) kw)
        (match kw !! "errordef" with
         | Some (PyFloat u) => u
         | _ => default_errordef
         end)
        (default PyNone (kw !! "print_level"))
        default_tol default_strategy n).

Definition migrad (m : Minuit Core) : result (Minuit Core) :=
  '(vs, n) ← migrad_pass m; Ok (set_num m vs n).

Definition hesse (m : Minuit Core) : result (Minuit Core) :=
  '(vs, n) ← hesse_pass m; Ok (set_num m vs n).

Definition minos (m : Minuit Core) : result (Minuit Core) :=
  '(vs, n) ← minos_pass m; Ok (set_num m vs n).

End EngineBinding.

(** ** numpy and math, as far as [contours] uses them

    [linspace] and [logspace] return [num] samples or raise; the grid code
    relies on nothing else. *)
Class Numpy : Type := {
  linspace : float -> float -> Z -> result (list float);
  logspace : float -> float -> Z -> result (list float);
  log10 : float -> result float;
  linspace_length : forall a b n l,
    linspace a b n = Ok l -> length l = Z.to_nat n;
  logspace_length : forall a b n l,
    logspace a b n = Ok l -> length l = Z.to_nat n
}.

(** [numpy.array(results).reshape((n1, n2))], row-major. *)
Fixpoint rows {A} (n1 n2 : nat) (l : list A) : list (list A) :=
  match n1 with
  | O => []
  | S n => take n2 l :: rows n n2 (drop n2 l)
  end.

Definition reshape {A} (l : list A) (n1 n2 : nat) : result (list (list A)) :=
  if decide (length l = (n1 * n2)%nat) then Ok (rows n1 n2 l) else Raise ValueError.

(** Modelled from the spec: [threeML.utils.cartesian.cartesian], which is not
    among the sources.  The grid is the Cartesian product of the two step
    sequences in grid-generation order: the first sequence is the slow index,
    so that grid point (i, j) lands in cell (i, j) of the reshaped matrix. *)
Definition cartesian (s1 s2 : list float) : list (float * float) :=
  x ← s1; y ← s2; [(x, y)].

(** ** The worker that evaluates one grid point *)

Module ContourWorker.
Section Defs.
Context {E : Engine}.

Record t : Type := mk {
  _function : ObjFun;
  _minuit_values : gmap string float;
  _minuit_args : gmap string pyval;
  minuit_param_1 : string;
  minuit_param_2 : option string;
  name_to_position : gmap string nat
}.

Definition __init__ (function : ObjFun) (minuit_values : gmap string float)
    (minuit_args : gmap string pyval) (minuit_param_1 : string)
    (minuit_param_2 : option string) (name_to_position : gmap string nat) : t :=
  (* Update the values for the parameters with the best fit one *)
  let minuit_args :=
    map_fold (fun key v d => <[key := PyFloat v]> d) minuit_args minuit_values in
  (* This is a likelihood *)
  let minuit_args := <["errordef" := PyFloat 0.5]> minuit_args in
  (* Disable printing by iminuit *)
  let minuit_args := <["print_level" := PyInt 0]> minuit_args in
  mk function minuit_values minuit_args minuit_param_1 minuit_param_2
    name_to_position.

Definition _create_new_minuit_object (w : t) (args : gmap string pyval)
    : result (Minuit Core) :=
  _contour_minuit ← Minuit_new (_function w) args;
  Ok (set_tol _contour_minuit 100).

(** Fix the parameters under scrutiny. *)
Fixpoint fix_parameters (names : list (option string))
    (this_minuit_args : gmap string pyval) : result (gmap string pyval) :=
  match names with
  | [] => Ok this_minuit_args
  | None :: rest => fix_parameters rest this_minuit_args
  | Some minuit_name :: rest =>
      if decide (is_Some (this_minuit_args !! minuit_name))
      then fix_parameters rest
             (<["fix_" +:+ minuit_name := PyBool true]> this_minuit_args)
      else Raise (ParameterIsNotFree
                    ("Parameter " +:+ minuit_name +:+ " is not a free parameter."))
  end.

Definition this_args (w : t) (value_1 value_2 : float)
    : result (gmap string pyval) :=
  let this_minuit_args := _minuit_args w in
  let this_minuit_args :=
    <[minuit_param_1 w := PyFloat value_1]> this_minuit_args in
  let this_minuit_args :=
    match minuit_param_2 w with
    | Some p2 => <[p2 := PyFloat value_2]> this_minuit_args
    | None => this_minuit_args
    end in
  fix_parameters [Some (minuit_param_1 w); minuit_param_2 w] this_minuit_args.

(** The engine [__call__] builds for one grid point: the first half of
    the method, up to [self._create_new_minuit_object(this_minuit_args)]. *)
Definition engine_for (w : t) (value_1 value_2 : float)
    : result (Minuit Core) :=
  this_minuit_args ← this_args w value_1 value_2;
  _create_new_minuit_object w this_minuit_args.

Definition position (w : t) (name : string) : result nat :=
  match name_to_position w !! name with
  | Some i => Ok i
  | None => Raise (KeyError name)
  end.

(** [l[i] = v] on a Python list. *)
Definition set_item (l : list float) (i : nat) (v : float)
    : result (list float) :=
  if decide (i < length l)%nat then Ok (<[i := v]> l) else Raise IndexError.

Definition __call__ (w : t) (args : float * float) : result float :=
  let '(value_1, value_2) := args in
  this_contour_minuit ← engine_for w value_1 value_2;
  if decide (length (list_of_vary_param this_contour_minuit) = 0%nat) then
    (* All parameters are fixed, just return the likelihood function *)
    match minuit_param_2 w with
    | None => call (_function w) [value_1]
    | Some p2 =>
        let this_variables := [0; 0] in
        i1 ← position w (minuit_param_1 w);
        this_variables ← set_item this_variables i1 value_1;
        i2 ← position w p2;
        this_variables ← set_item this_variables i2 value_2;
        call (_function w) this_variables
    end
  else
    match migrad this_contour_minuit with
    | Raise _ => Ok FIT_FAILED
    | Ok after => Ok (fval after)
    end.

End Defs.
End ContourWorker.

(** ** Observable effects: engine passes, console output, progress *)
Inductive event : Type :=
| EvMigrad
| EvHesse
| EvMinos
| EvPrint (s : string)
| EvWarn (s : string)
| EvDisplay (names : list string)
| EvProgress (n : Z).

(** Modelled from the spec: the parallel execution backend
    ([threeML.parallel.parallel_client.ParallelClient] and the view it hands
    out), which is not among the sources.  A batch is an ordered list of
    independent evaluations; the backend completes them in an order of its
    own choosing, keeps each result under the index of its grid point, and
    hands the results back in submission order.  Every submitted evaluation
    eventually completes. *)
Module Parallel.

Record AsyncMapResult : Type := mkAsync {
  tasks : list (float * float);
  finished : gmap nat (result float)
}.

Definition map_async (grid : list (float * float)) : AsyncMapResult :=
  mkAsync grid ∅.

(** Completion of task [k] by some engine of the pool. *)
Definition complete (worker : float * float -> result float) (k : nat)
    (amr : AsyncMapResult) : AsyncMapResult :=
  match tasks amr !! k, finished amr !! k with
  | Some point, None => mkAsync (tasks amr) (<[k := worker point]> (finished amr))
  | _, _ => amr
  end.

Definition ready (amr : AsyncMapResult) : bool :=
  bool_decide (size (finished amr) = length (tasks amr)).

Definition progress (amr : AsyncMapResult) : Z := Z.of_nat (size (finished amr)).

Definition remaining (amr : AsyncMapResult) : list nat :=
  filter (fun k => finished amr !! k = None) (seq 0 (length (tasks amr))).

Definition complete_all (worker : float * float -> result float)
    (ks : list nat) (amr : AsyncMapResult) : AsyncMapResult :=
  fold_left (fun a k => complete worker k a) ks amr.

(** [amr.get()]: waits for the evaluations still running, then returns the
    results in submission order; a failed evaluation is reported here, as a
    remote error. *)
Definition get (worker : float * float -> result float)
    (amr : AsyncMapResult) : result (list float) :=
  let amr := complete_all worker (remaining amr) amr in
  mapM (M := result)
    (fun k => match finished amr !! k with
              | Some (Ok v) => Ok v
              | _ => Raise RemoteError
              end)
    (seq 0 (length (tasks amr))).

End Parallel.

(** ** The MIGRAD binding *)

Module MinuitMinimizer.
Section Defs.
Context {E : Engine} {NP : Numpy}.

Record t : Type := mk {
  function : list float -> result float;
  parameters : odict Par;
  Npar : nat;
  ftol : float;
  verbosity : Z;
  name_to_position : gmap string nat;
  _f : ObjFun;
  minuit : Minuit Core;
  _best_fit_parameters : option (odict float);
  _function_minimum_value : option float
}.

Definition with_parameters (s : t) (ps : odict Par) : t :=
  mk (function s) ps (Npar s) (ftol s) (verbosity s) (name_to_position s)
    (_f s) (minuit s) (_best_fit_parameters s) (_function_minimum_value s).

Definition with_minuit (s : t) (m : Minuit Core) : t :=
  mk (function s) (parameters s) (Npar s) (ftol s) (verbosity s)
    (name_to_position s) (_f s) m (_best_fit_parameters s)
    (_function_minimum_value s).

Definition with_best_fit (s : t) (bf : option (odict float)) : t :=
  mk (function s) (parameters s) (Npar s) (ftol s) (verbosity s)
    (name_to_position s) (_f s) (minuit s) bf (_function_minimum_value s).

Definition with_minimum (s : t) (fm : option float) : t :=
  mk (function s) (parameters s) (Npar s) (ftol s) (verbosity s)
    (name_to_position s) (_f s) (minuit s) (_best_fit_parameters s) fm.

(** *** Construction *)

Definition default_ftol : float := 1e3.
Definition default_verbosity : Z := 0.

Definition enumerate {A} (l : list A) : list (nat * A) := imap pair l.

(** The loop of [__init__] over the registry: the keyword dictionary and the
    list of variable names. *)
Definition init_step (acc : gmap string pyval * list string)
    (kp : string * Par) : gmap string pyval * list string :=
  let current_name := _parameter_name_to_minuit_name kp.1 in
  let par := kp.2 in
  let d := acc.1 in
  (* Initial value *)
  let d := <[current_name := PyFloat (value par)]> d in
  (* Initial delta *)
  let d := <["error_" +:+ current_name := PyFloat (delta par)]> d in
  (* Limits *)
  let d := <["limit_" +:+ current_name :=
               PyTuple2 (py_of_bound (min_value par))
                        (py_of_bound (max_value par))]> d in
  (* This is useless, since all parameters here are free *)
  let d := <["fix_" +:+ current_name := PyBool false]> d in
  (d, acc.2 ++ [current_name]).

Definition init_parameters (parameters : odict Par)
    : gmap string pyval * list string :=
  fold_left init_step parameters (∅, []).

Definition __init__ (function : list float -> result float)
    (parameters : odict Par) (ftol : float) (verbosity : Z) : result t :=
  let '(iminuit_init_parameters, variable_names_for_iminuit) :=
    init_parameters parameters in
  (* This is to tell Minuit that we are dealing with likelihoods *)
  let iminuit_init_parameters :=
    <["errordef" := PyFloat 0.5]> iminuit_init_parameters in
  let iminuit_init_parameters :=
    <["print_level" := PyInt verbosity]> iminuit_init_parameters in
  let name_to_position :=
    fold_left (fun d ik => <[ik.2 := ik.1]> d)
      (enumerate variable_names_for_iminuit) ∅ in
  _ ← exec_def variable_names_for_iminuit;
  let _f := mkObjFun variable_names_for_iminuit function in
  m ← Minuit_new _f iminuit_init_parameters;
  let m := set_tol m ftol in
  let m := match set_up m 0.5 with
           | Some m' => m'
           | None => set_errordef m 0.5   (* iMinuit uses errodef, not up *)
           end in
  let m := set_strategy m 0 in
  Ok (mk function parameters (length (keys parameters)) ftol verbosity
        name_to_position _f m None None).

(** *** Methods: state is the object and the effects it has caused *)

Record World : Type := mkWorld {
  self : t;
  trace : list event
}.

Definition M (A : Type) : Type := World -> result A * World.

#[global] Instance M_ret : MRet M := fun A a w => (Ok a, w).

#[global] Instance M_bind : MBind M := fun A B k c w =>
  match c w with
  | (Ok a, w') => k a w'
  | (Raise e, w') => (Raise e, w')
  end.

Definition raise {A} (e : exn) : M A := fun w => (Raise e, w).
Definition lift {A} (r : result A) : M A := fun w => (r, w).
Definition get_self : M t := fun w => (Ok (self w), w).
Definition put_self (s : t) : M unit := fun w => (Ok tt, mkWorld s (trace w)).
Definition emit (ev : event) : M unit :=
  fun w => (Ok tt, mkWorld (self w) (trace w ++ [ev])).

Definition function_minimum_value (s : t) : option float :=
  _function_minimum_value s.

Definition best_fit_parameters (s : t) : option (odict float) :=
  _best_fit_parameters s.

Definition _migrad_has_converged (s : t) : bool :=
  PrimFloat.leb (edm (minuit s)) (0.002 * tol (minuit s) * 0.5).

(** [self.minuit.migrad()], [.hesse()], [.minos()] *)
Definition minuit_migrad : M unit :=
  emit EvMigrad;;
  s ← get_self;
  m ← lift (migrad (minuit s));
  put_self (with_minuit s m).

Definition minuit_hesse : M unit :=
  emit EvHesse;;
  s ← get_self;
  m ← lift (hesse (minuit s));
  put_self (with_minuit s m).

Definition minuit_minos : M unit :=
  emit EvMinos;;
  s ← get_self;
  m ← lift (minos (minuit s));
  put_self (with_minuit s m).

(** Repeat Migrad up to trials times, until it converges *)
Fixpoint _run_migrad (trials : nat) : M unit :=
  match trials with
  | O => mret tt
  | S remaining =>
      minuit_migrad;;
      s ← get_self;
      if _migrad_has_converged s then mret tt else _run_migrad remaining
  end.

(** [self.best_fit_parameters[k]] *)
Definition best_fit_item (s : t) (k : string) : result float :=
  match best_fit_parameters s with
  | None => Raise (TypeError "'NoneType' object has no attribute '__getitem__'")
  | Some d =>
      match od_get d k with
      | Some v => Ok v
      | None => Raise (KeyError k)
      end
  end.

(** The loop of [_restore_best_fit]; [i] is the position of the entry in the
    registry, whose parameter object is updated in place. *)
Fixpoint restore_loop (i : nat) (todo : list string) : M unit :=
  match todo with
  | [] => mret tt
  | k :: rest =>
      s ← get_self;
      v ← lift (best_fit_item s k);
      let ps := match parameters s !! i with
                | Some (k', par) => <[i := (k', set_value par v)]> (parameters s)
                | None => parameters s
                end in
      let minuit_name := _parameter_name_to_minuit_name k in
      let m := set_values (minuit s) (<[minuit_name := v]> (values (minuit s))) in
      put_self (with_minuit (with_parameters s ps) m);;
      restore_loop (S i) rest
  end.

Definition _restore_best_fit : M unit :=
  s ← get_self;
  restore_loop 0 (keys (parameters s)).

(** The loop of [minimize] that fills the new best-fit dictionary. *)
Fixpoint store_loop (todo : list string) : M unit :=
  match todo with
  | [] => mret tt
  | k :: rest =>
      s ← get_self;
      let minuit_name := _parameter_name_to_minuit_name k in
      v ← lift (match values (minuit s) !! minuit_name with
                | Some v => Ok v
                | None => Raise (KeyError minuit_name)
                end);
      d ← lift (match _best_fit_parameters s with
                | Some d => Ok d
                | None => Raise (TypeError "'NoneType' object does not support item assignment")
                end);
      put_self (with_best_fit s (Some (od_set d k v)));;
      store_loop rest
  end.

Definition not_converged_message : string :=
  String "010" "MIGRAD did not converge in 10 trials.".

Definition minimize : M (option (odict float) * option float) :=
  _run_migrad 10;;
  s ← get_self;
  if negb (_migrad_has_converged s) then
    emit (EvPrint not_converged_message);;
    mret (Some [], Some FIT_FAILED)
  else
    (* Make a ordered dict for the results *)
    put_self (with_best_fit s (Some []));;
    store_loop (keys (parameters s));;
    s ← get_self;
    put_self (with_minimum s (Some (fval (minuit s))));;
    (* hesse must be called AFTER having stored the parameters *)
    minuit_hesse;;
    (* Restore parameters to their best fit after HESS has changed them *)
    _restore_best_fit;;
    s ← get_self;
    mret (_best_fit_parameters s, _function_minimum_value s).

(** The loop of [get_errors] that reads the MINOS errors. *)
Fixpoint errors_loop (m : Minuit Core) (todo : list string)
    (errors : odict (float * float)) : result (odict (float * float)) :=
  match todo with
  | [] => Ok errors
  | k :: rest =>
      let minuit_name := _parameter_name_to_minuit_name k in
      match merrors m !! (minuit_name, (-1)%Z), merrors m !! (minuit_name, 1%Z) with
      | Some lo, Some hi => errors_loop m rest (od_set errors k (lo, hi))
      | _, _ => Raise (KeyError minuit_name)
      end
  end.

Definition get_errors : M (odict (float * float)) :=
  _restore_best_fit;;
  s ← get_self;
  if negb (_migrad_has_converged s) then
    raise (CannotComputeErrors
      "MIGRAD results not valid, cannot compute errors. Did you run the fit first ?")
  else
    minuit_minos;;
    s ← get_self;
    errors ← lift (errors_loop (minuit s) (keys (parameters s)) []);
    (* Set the parameters back to the best fit value *)
    _restore_best_fit;;
    (* Create and display the table *)
    emit (EvDisplay (keys errors));;
    mret errors.

(** *** Contours *)

(** The keyword options of [contours]: [log] and [parallel], when given. *)
Record Options : Type := mkOptions {
  opt_log : option (list bool);
  opt_parallel : option bool
}.

Definition no_options : Options := mkOptions None None.

Definition need {A} (o : option A) : result A :=
  match o with
  | Some a => Ok a
  | None => Raise (TypeError "unsupported operand: NoneType")
  end.

(** Generate the steps of one axis. *)
Definition steps (is_log : bool) (minimum maximum : float) (n_steps : Z)
    : result (list float) :=
  if is_log then
    lo ← log10 minimum;
    hi ← log10 maximum;
    logspace lo hi n_steps
  else linspace minimum maximum n_steps.

(** Serial computation: [map(wrap, grid)] or [map(contour_worker, grid)]. *)
Fixpoint serial_map (progress : bool) (w : ContourWorker.t)
    (grid : list (float * float)) : M (list float) :=
  match grid with
  | [] => mret []
  | args :: rest =>
      results ← lift (ContourWorker.__call__ w args);
      (if progress then emit (EvProgress 1) else mret tt);;
      others ← serial_map progress w rest;
      mret (results :: others)
  end.

(** The polling loop of the parallel computation.  [ticks] is the behaviour
    of the pool: the evaluations that complete during each one-second sleep;
    whatever is still running after the last tick completes next. *)
Fixpoint poll (w : ContourWorker.t) (ticks : list (list nat))
    (amr : Parallel.AsyncMapResult) : M Parallel.AsyncMapResult :=
  if Parallel.ready amr then mret amr
  else
    match ticks with
    | [] =>
        let amr :=
          Parallel.complete_all (ContourWorker.__call__ w)
            (Parallel.remaining amr) amr in
        emit (EvProgress (Parallel.progress amr - 1));;
        mret amr
    | tick :: later =>
        let amr := Parallel.complete_all (ContourWorker.__call__ w) tick amr in
        emit (EvProgress (Parallel.progress amr - 1));;
        poll w later amr
    end.

Definition no_best_fit_warning : string :=
  "No best fit to restore before contours computation. Perform the fit before running contours to remove this warnings.".

(** [contours] in three parts: the steps, the baseline and the worker; the
    evaluation of the grid by the chosen strategy; the assembly of the
    result.  [ticks] is the behaviour of the worker pool, see [poll]. *)
Definition contours_setup (param_1 : string)
    (param_1_minimum param_1_maximum : float) (param_1_n_steps : Z)
    (param_2 : option string) (param_2_minimum param_2_maximum : option float)
    (param_2_n_steps : option Z) (options : Options)
    : M (list float * list float * ContourWorker.t) :=
  (* Figure out if we are making a 1d or a 2d contour *)
  let n_dimensions := match param_2 with None => 1%nat | Some _ => 2%nat end in
  (* Check the options *)
  '(p1log, p2log) ← lift
    (match opt_log options with
     | None => Ok (false, false)
     | Some flags =>
         if decide (length flags = n_dimensions) then
           Ok (default false (flags !! 0%nat),
               match param_2 with
               | Some _ => default false (flags !! 1%nat)
               | None => false
               end)
         else Raise (AssertionError
           "When specifying the 'log' option you have to provide a boolean for each dimension you are stepping on.")
     end);
  (* Generate the steps *)
  param_1_steps ← lift (steps p1log param_1_minimum param_1_maximum param_1_n_steps);
  param_2_steps ← lift
    (match param_2 with
     | Some _ =>
         lo ← need param_2_minimum;
         hi ← need param_2_maximum;
         n ← need param_2_n_steps;
         steps p2log lo hi n
     | None =>
         (* Only one parameter to step through: put param_2_steps as nan *)
         Ok [nan]
     end);
  (* Restore best fit *)
  s ← get_self;
  (match _best_fit_parameters s with
   | Some (_ :: _) => _restore_best_fit
   | _ => emit (EvWarn no_best_fit_warning)
   end);;
  s ← get_self;
  (* Duplicate the options used for the original minimizer *)
  let new_args := fitarg (minuit s) in
  (* Get the minuit names for the parameters *)
  let minuit_param_1 := _parameter_name_to_minuit_name param_1 in
  let minuit_param_2 := _parameter_name_to_minuit_name <$> param_2 in
  (* Instance the worker *)
  mret (param_1_steps, param_2_steps,
        ContourWorker.__init__ (_f s) (values (minuit s)) new_args
          minuit_param_1 minuit_param_2 (name_to_position s)).

Definition contours_compute (parallel progress : bool)
    (contour_worker : ContourWorker.t) (grid : list (float * float))
    (ticks : list (list nat)) : M (list float) :=
  if negb parallel then serial_map progress contour_worker grid
  else
    let amr := Parallel.map_async grid in
    amr ← poll contour_worker ticks amr;
    (* If there have been problems, here is where they will be raised *)
    results ← lift (Parallel.get (ContourWorker.__call__ contour_worker) amr);
    (* Always display 100% at the end *)
    emit (EvProgress (2 * Z.of_nat (length grid)));;
    emit (EvPrint (String "010" ""));;
    mret results.

Definition contours (param_1 : string) (param_1_minimum param_1_maximum : float)
    (param_1_n_steps : Z)
    (param_2 : option string) (param_2_minimum param_2_maximum : option float)
    (param_2_n_steps : option Z)
    (progress : bool) (options : Options) (ticks : list (list nat))
    : M (list float * option (list float) * list (list float)) :=
  '(param_1_steps, param_2_steps, contour_worker) ←
    contours_setup param_1 param_1_minimum param_1_maximum param_1_n_steps
      param_2 param_2_minimum param_2_maximum param_2_n_steps options;
  (* Generate the grid *)
  let grid := cartesian param_1_steps param_2_steps in
  let parallel := default false (opt_parallel options) in
  results ← contours_compute parallel progress contour_worker grid ticks;
  matrix ← lift (reshape results (length param_1_steps) (length param_2_steps));
  mret (param_1_steps, Some param_2_steps, matrix).

End Defs.
End MinuitMinimizer.

(** ** Concrete collaborators, to run the binding on examples *)

(** An engine that follows a script: each MIGRAD pass moves the free
    parameters to the next scripted point and reports the scripted distance
    to the minimum, or raises when the script says [None]; when the script is
    used up every pass behaves like [final].  The objective is evaluated at
    the point reached. *)
Definition scripted_step : Type := option (float * list float).

Section Scripted.
Variable script : list scripted_step.
Variable final : scripted_step.

Definition scripted_point (m : Minuit (list scripted_step))
    (target : list float) : list float :=
  imap (fun i n =>
          if is_fixed m n then default 0 (values m !! n)
          else default 0 (target !! i))
       (arg_names (fcn m)).

Definition scripted_values (names : list string) (point : list float)
    : gmap string float :=
  list_to_map (zip names point).

Definition scripted_migrad (m : Minuit (list scripted_step))
    : result (gmap string float * Numerics (list scripted_step)) :=
  let '(step, later) :=
    match internal (num m) with
    | step :: later => (step, later)
    | [] => (final, [])
    end in
  match step with
  | None => Raise (EngineError 1)
  | Some (distance, target) =>
      let point := scripted_point m target in
      v ← call (fcn m) point;
      Ok (scripted_values (arg_names (fcn m)) point,
          mkNumerics distance v (n_errors (num m)) (n_covariance (num m))
            (n_merrors (num m)) later)
  end.

Definition scripted_minos (m : Minuit (list scripted_step))
    : result (gmap string float * Numerics (list scripted_step)) :=
  Ok (values m,
      mkNumerics (edm m) (fval m) (n_errors (num m)) (n_covariance (num m))
        (fold_left (fun d n => <[(n, 1%Z) := 1]> (<[(n, (-1)%Z) := -1]> d))
           (arg_names (fcn m)) ∅)
        (internal (num m))).

Definition scripted : Engine := {|
  Core := list scripted_step;
  engine_init := fun _ _ => Ok (mkNumerics nan nan ∅ None ∅ script);
  migrad_pass := scripted_migrad;
  hesse_pass := fun m => Ok (values m, num m);
  minos_pass := scripted_minos;
  has_up := false;
  default_errordef := 1;
  default_tol := 0.1;
  default_strategy := 1
|}.

End Scripted.

(** Evenly spaced samples, as [numpy.linspace] computes them. *)
Definition float_of_nat (i : nat) : float :=
  PrimFloat.of_uint63 (Uint63.of_Z (Z.of_nat i)).

Definition sample_linspace (a b : float) (n : Z) : result (list float) :=
  if (n <? 0)%Z then Raise ValueError
  else
    let k := Z.to_nat n in
    let step := (b - a) / float_of_nat (k - 1) in
    Ok (map (fun i =>
               if (i =? 0)%nat then a
               else if (S i =? k)%nat then b
               else a + float_of_nat i * step)
            (seq 0 k)).

(** Logarithmic spacing is left out of the sample: it raises. *)
Definition sample_numpy : Numpy.
Proof.
  refine {| linspace := sample_linspace;
            logspace := fun _ _ _ => Raise ValueError;
            log10 := fun _ => Raise ValueError |}.
  - intros a b n l. unfold sample_linspace.
    destruct (n <? 0)%Z; [discriminate|].
    intros Heq. injection Heq as <-. by rewrite length_map, length_seq.
  - discriminate.
Defined.

Definition sample_par : Par := mkPar 0 1 None None "".

(** ** Behaviours of an objective under the engine *)

Section Behaviour.
Context {E : Engine}.

(** The engine after [k] MIGRAD passes in a row, each starting where the
    previous one stopped. *)
Definition passes (k : nat) (m0 : Minuit Core) : result (Minuit Core) :=
  Nat.iter k (fun r => r ≫= migrad) (Ok m0).

(** The minimization never satisfies the convergence criterion: whatever the
    number of passes already made, one more pass returns and leaves the
    estimated distance to the minimum above the threshold. *)
Definition never_converges (s : MinuitMinimizer.t) : Prop :=
  forall k m,
    passes k (MinuitMinimizer.minuit s) = Ok m ->
    exists m',
      migrad m = Ok m' /\
      MinuitMinimizer._migrad_has_converged (MinuitMinimizer.with_minuit s m')
      = false.

End Behaviour.

(** A binding of one free parameter on an engine that never converges. *)
Definition stalling_engine : Engine := scripted [] (Some (5, [4])).

Definition constant_objective (args : list float) : result float := Ok 1.

Definition stalling_minimizer : result (MinuitMinimizer.t (E := stalling_engine)) :=
  MinuitMinimizer.__init__ constant_objective [("s.x", sample_par)]
    MinuitMinimizer.default_ftol MinuitMinimizer.default_verbosity.

Definition stalling_world : MinuitMinimizer.World (E := stalling_engine) :=
  MinuitMinimizer.mkWorld (from_ok stalling_minimizer eq_refl) [].

(** What no method of the binding changes once [__init__] has run: the
    compiled objective, the position table, the registry's identities, and
    the engine's keywords, tolerance and error definition. *)
Definition same_binding {E : Engine} (s0 s : MinuitMinimizer.t) : Prop :=
  MinuitMinimizer._f s = MinuitMinimizer._f s0 /\
  MinuitMinimizer.name_to_position s = MinuitMinimizer.name_to_position s0 /\
  keys (MinuitMinimizer.parameters s) = keys (MinuitMinimizer.parameters s0) /\
  fcn (MinuitMinimizer.minuit s) = fcn (MinuitMinimizer.minuit s0) /\
  kwargs (MinuitMinimizer.minuit s) = kwargs (MinuitMinimizer.minuit s0) /\
  tol (MinuitMinimizer.minuit s) = tol (MinuitMinimizer.minuit s0) /\
  errordef (MinuitMinimizer.minuit s) = errordef (MinuitMinimizer.minuit s0).

(** The worker [contours] builds, from the state [s] it has after restoring
    the best fit. *)
Definition worker_of {E : Engine} (s : MinuitMinimizer.t) (param_1 : string)
    (param_2 : option string) : ContourWorker.t :=
  ContourWorker.__init__ (MinuitMinimizer._f s)
    (values (MinuitMinimizer.minuit s)) (fitarg (MinuitMinimizer.minuit s))
    (_parameter_name_to_minuit_name param_1)
    (_parameter_name_to_minuit_name <$> param_2)
    (MinuitMinimizer.name_to_position s).

(** Sample objectives. *)
Definition quadratic_objective (args : list float) : result float :=
  match args with
  | [x] => Ok ((x - 3) * (x - 3))
  | _ => Raise (TypeError "the objective takes exactly 1 argument")
  end.

Definition plane_objective (args : list float) : result float :=
  match args with
  | [x; y] => Ok (x + 10 * y)
  | _ => Raise (TypeError "the objective takes exactly 2 arguments")
  end.

(** An engine whose first pass converges at x = 3 and whose later passes
    stall at x = 4, and a binding of one free parameter on it. *)
Definition refit_engine : Engine := scripted [Some (0, [3])] (Some (5, [4])).

Definition refit_minimizer : result (MinuitMinimizer.t (E := refit_engine)) :=
  MinuitMinimizer.__init__ quadratic_objective [("s.x", sample_par)]
    MinuitMinimizer.default_ftol MinuitMinimizer.default_verbosity.

Definition refit_world : MinuitMinimizer.World (E := refit_engine) :=
  MinuitMinimizer.mkWorld (from_ok refit_minimizer eq_refl) [].

(** An engine whose passes return with the free parameters at 7 and an
    estimated distance to the minimum of 1000, far above any threshold in
    use, and a binding of two parameters on it. *)
Definition loose_engine : Engine := scripted [] (Some (1000, [7; 7])).

Definition plane_minimizer : result (MinuitMinimizer.t (E := loose_engine)) :=
  MinuitMinimizer.__init__ plane_objective
    [("s.x", sample_par); ("s.y", sample_par)]
    MinuitMinimizer.default_ftol MinuitMinimizer.default_verbosity.

Definition plane_world : MinuitMinimizer.World (E := loose_engine) :=
  MinuitMinimizer.mkWorld (from_ok plane_minimizer eq_refl) [].

(** An engine whose passes raise. *)
Definition failing_engine : Engine := scripted [] None.

Definition failing_minimizer : result (MinuitMinimizer.t (E := failing_engine)) :=
  MinuitMinimizer.__init__ plane_objective
    [("s.x", sample_par); ("s.y", sample_par)]
    MinuitMinimizer.default_ftol MinuitMinimizer.default_verbosity.

Definition failing_world : MinuitMinimizer.World (E := failing_engine) :=
  MinuitMinimizer.mkWorld (from_ok failing_minimizer eq_refl) [].

(** A keyword dictionary in which no entry is the flag [True]: nothing is
    declared fixed. *)
Definition never_fixed (d : gmap string pyval) : Prop :=
  forall k, d !! k <> Some (PyBool true).



(** The states of the sample engine that stalls: its script is used up. *)
Definition stalls (m : Minuit (Core (Engine := stalling_engine))) : Prop :=
  fcn m = mkObjFun ["s_x"] constant_objective /\
  kwargs m !! "fix_s_x" = Some (PyBool false) /\
  tol m = 1000 /\
  internal (num m) = [].



(** What [_restore_best_fit] writes: every registry parameter that has a
    stored best-fit value gets it, and so does its engine variable. *)
Definition restored_parameters (d : odict float) (ps : odict Par) : odict Par :=
  (fun kp => (kp.1, set_value kp.2 (default (value kp.2) (od_get d kp.1)))) <$> ps.

Definition restored_values (d : odict float) (ks : list string)
    (vs : gmap string float) : gmap string float :=
  fold_left
    (fun vs k =>
       match od_get d k with
       | Some v => <[_parameter_name_to_minuit_name k := v]> vs
       | None => vs
       end)
    ks vs.

Definition restored {E : Engine} (d : odict float) (s : MinuitMinimizer.t)
    : MinuitMinimizer.t :=
  MinuitMinimizer.with_minuit
    (MinuitMinimizer.with_parameters s
       (restored_parameters d (MinuitMinimizer.parameters s)))
    (set_values (MinuitMinimizer.minuit s)
       (restored_values d (keys (MinuitMinimizer.parameters s))
          (values (MinuitMinimizer.minuit s)))).

(** The last best-fit value written to the engine variable [n] by a restore
    over the keys [ks], or [acc] when none of them renders to [n]. *)
Definition last_write (d : odict float) (n : string) (ks : list string)
    (acc : option float) : option float :=
  fold_left
    (fun acc k =>
       match od_get d k with
       | Some v =>
           if decide (_parameter_name_to_minuit_name k = n) then Some v
           else acc
       | None => acc
       end)
    ks acc.

(** * Properties *)

(** ** Engine variable names *)


Lemma fmap_NoDup_injective {A B} (f : A -> B) (l : list A) (x y : A) :
  NoDup (f <$> l) -> x ∈ l -> y ∈ l -> f x = f y -> x = y.
Proof.
  induction l as [|a l IH]; simpl; [by intros _ ?%elem_of_nil|].
  rewrite NoDup_cons. intros [Hnotin Hnd] Hx Hy Heq.
  apply elem_of_cons in Hx as [->|Hx]; apply elem_of_cons in Hy as [->|Hy];
    try done.
  - exfalso. apply Hnotin. rewrite Heq. by apply list_elem_of_fmap_2.
  - exfalso. apply Hnotin. rewrite <- Heq. by apply list_elem_of_fmap_2.
  - by apply IH.
Qed.

Section InitFacts.
Context {E : Engine}.

Lemma init_parameters_fold (parameters : odict Par) acc :
  (fold_left MinuitMinimizer.init_step parameters acc).2
  = acc.2 ++ (_parameter_name_to_minuit_name <$> keys parameters).
Proof.
  revert acc. induction parameters as [|[k par] ps IH]; intros acc.
  - simpl. by rewrite app_nil_r.
  - simpl. rewrite IH. simpl. by rewrite <- app_assoc.
Qed.

Lemma init_parameters_names (parameters : odict Par) :
  (MinuitMinimizer.init_parameters parameters).2
  = _parameter_name_to_minuit_name <$> keys parameters.
Proof. unfold MinuitMinimizer.init_parameters. by rewrite init_parameters_fold. Qed.

(** What a successful construction establishes. *)
Lemma init_inversion function parameters ftol verbosity s :
  MinuitMinimizer.__init__ function parameters ftol verbosity = Ok s ->
  let names := _parameter_name_to_minuit_name <$> keys parameters in
  NoDup names /\
  MinuitMinimizer._f s = mkObjFun names function /\
  MinuitMinimizer.parameters s = parameters /\
  MinuitMinimizer.ftol s = ftol /\
  MinuitMinimizer._best_fit_parameters s = None /\
  MinuitMinimizer._function_minimum_value s = None /\
  MinuitMinimizer.name_to_position s
    = fold_left (fun d ik => <[ik.2 := ik.1]> d)
        (MinuitMinimizer.enumerate names) ∅ /\
  fcn (MinuitMinimizer.minuit s) = mkObjFun names function /\
  kwargs (MinuitMinimizer.minuit s)
    = <["print_level" := PyInt verbosity]>
        (<["errordef" := PyFloat 0.5]>
           (MinuitMinimizer.init_parameters parameters).1) /\
  tol (MinuitMinimizer.minuit s) = ftol /\
  errordef (MinuitMinimizer.minuit s) = 0.5.
Proof.
  unfold MinuitMinimizer.__init__.
  pose proof (init_parameters_names parameters) as Hnames.
  destruct (MinuitMinimizer.init_parameters parameters) as [d names0].
  simpl in Hnames. subst names0. cbn zeta.
  unfold exec_def.
  destruct (forallb is_identifier _ && bool_decide _) eqn:Hexec; [|done].
  apply andb_true_iff in Hexec as [_ Hnd]. apply bool_decide_eq_true in Hnd.
  apply NoDup_cons in Hnd as [_ Hnd].
  unfold mbind, result_bind, Minuit_new.
  destruct (engine_init _ _) as [n|e]; [|done].
  intros Heq. injection Heq as <-. simpl.
  repeat split; try done.
  all: unfold set_up; by destruct has_up.
Qed.

End InitFacts.



(** ** The retry loop *)

Section Convergence.
Context {E : Engine}.
Import MinuitMinimizer.

Lemma with_minuit_same (s : t) : with_minuit s (minuit s) = s.
Proof. by destruct s. Qed.

Lemma passes_succ k (m0 m m' : Minuit Core) :
  passes k m0 = Ok m -> migrad m = Ok m' -> passes (S k) m0 = Ok m'.
Proof. unfold passes. simpl. by intros ->. Qed.

Lemma passes_succ_inv k (m0 m' : Minuit Core) :
  passes (S k) m0 = Ok m' ->
  exists m, passes k m0 = Ok m /\ migrad m = Ok m'.
Proof.
  unfold passes. simpl.
  destruct (Nat.iter k _ _) as [m|e]; [|done].
  intros Hlast. by exists m.
Qed.

Lemma minuit_migrad_ok (s : t) tr m1 :
  migrad (minuit s) = Ok m1 ->
  minuit_migrad (mkWorld s tr)
  = (Ok tt, mkWorld (with_minuit s m1) (tr ++ [EvMigrad])).
Proof.
  intros Hpass.
  unfold minuit_migrad, mbind, M_bind, emit, get_self, lift, put_self.
  cbn. by rewrite Hpass.
Qed.

Lemma minuit_migrad_raise (s : t) tr e :
  migrad (minuit s) = Raise e ->
  minuit_migrad (mkWorld s tr) = (Raise e, mkWorld s (tr ++ [EvMigrad])).
Proof.
  intros Hpass.
  unfold minuit_migrad, mbind, M_bind, emit, get_self, lift, put_self.
  cbn. by rewrite Hpass.
Qed.

Lemma run_migrad_step n w :
  _run_migrad (S n) w
  = match minuit_migrad w with
    | (Ok _, w') =>
        if _migrad_has_converged (self w') then (Ok tt, w')
        else _run_migrad n w'
    | (Raise e, w') => (Raise e, w')
    end.
Proof.
  cbn [_run_migrad]. unfold mbind at 1, M_bind at 1.
  destruct (minuit_migrad w) as [[[]|e] w']; [|done].
  unfold mbind, M_bind, get_self. by destruct (_migrad_has_converged _).
Qed.

(** Under [never_converges], [_run_migrad n] makes exactly [n] passes, leaves
    everything but the engine alone and ends on a state that has not
    converged. *)
Lemma run_migrad_never_converges (s0 : t) (n : nat) :
  never_converges s0 ->
  forall k m tr,
    passes k (minuit s0) = Ok m ->
    exists m',
      passes (k + n) (minuit s0) = Ok m' /\
      _run_migrad n (mkWorld (with_minuit s0 m) tr)
      = (Ok tt, mkWorld (with_minuit s0 m') (tr ++ repeat EvMigrad n)) /\
      (0 < n -> _migrad_has_converged (with_minuit s0 m') = false)%nat.
Proof.
  intros Hnever. induction n as [|n IH]; intros k m tr Hk.
  - exists m. rewrite Nat.add_0_r, app_nil_r. split_and!; [done|done|lia].
  - destruct (Hnever k m Hk) as (m1 & Hpass & Hnot).
    destruct (IH (S k) m1 (tr ++ [EvMigrad]) (passes_succ _ _ _ _ Hk Hpass))
      as (m' & Hpasses & Hrun & Hlast).
    exists m'. split_and!.
    + by rewrite Nat.add_succ_r.
    + rewrite run_migrad_step.
      rewrite (minuit_migrad_ok _ _ m1) by done.
      change (with_minuit (with_minuit s0 m) m1) with (with_minuit s0 m1).
      cbn [self]. rewrite Hnot, Hrun.
      by rewrite <- app_assoc.
    + intros _. destruct n as [|n]; [|apply Hlast; lia].
      injection Hrun as Hm. by subst m'.
Qed.

(** [minimize], once the retry loop has run. *)
Lemma minimize_after_run w :
  minimize w
  = match _run_migrad 10 w with
    | (Ok _, w1) =>
        if _migrad_has_converged (self w1) then
          (put_self (with_best_fit (self w1) (Some []));;
           store_loop (keys (parameters (self w1)));;
           s ← get_self;
           put_self (with_minimum s (Some (fval (minuit s))));;
           minuit_hesse;;
           _restore_best_fit;;
           s ← get_self;
           mret (_best_fit_parameters s, _function_minimum_value s)) w1
        else
          (Ok (Some [], Some FIT_FAILED),
           mkWorld (self w1) (trace w1 ++ [EvPrint not_converged_message]))
    | (Raise e, w1) => (Raise e, w1)
    end.
Proof.
  unfold minimize. unfold mbind at 1, M_bind at 1.
  destruct (_run_migrad 10 w) as [[[]|e] w1]; [|done].
  unfold mbind at 1, M_bind at 1, get_self at 1.
  by destruct (_migrad_has_converged (self w1)).
Qed.

(** C1: when the minimization never satisfies the convergence criterion,
    [minimize] makes exactly ten MIGRAD passes, neither fewer nor more, prints
    its message and returns the empty best-fit mapping with the sentinel
    [FIT_FAILED] = 1e12; it does not raise. *)
Theorem minimize_exhausts_retry_budget (w : World) :
  never_converges (self w) ->
  exists m,
    passes 10 (minuit (self w)) = Ok m /\
    minimize w
    = (Ok (Some [], Some FIT_FAILED),
       mkWorld (with_minuit (self w) m)
         (trace w ++ repeat EvMigrad 10 ++ [EvPrint not_converged_message])) /\
    FIT_FAILED = 1e12.
Proof.
  intros Hnever.
  destruct (run_migrad_never_converges (self w) 10 Hnever 0 (minuit (self w))
              (trace w) eq_refl) as (m & Hpasses & Hrun & Hlast).
  exists m. split_and!; [done| |done].
  rewrite with_minuit_same in Hrun. destruct w as [s tr]. cbn [self trace] in *.
  rewrite minimize_after_run, Hrun. cbn [self].
  rewrite Hlast by lia. cbn. by rewrite <- app_assoc.
Qed.

End Convergence.

(** The sample binding on the stalling engine never converges. *)
Section StallingSample.
Import MinuitMinimizer.

Lemma stalls_pass m :
  stalls m ->
  exists m', migrad (E := stalling_engine) m = Ok m' /\ stalls m' /\ edm m' = 5.
Proof.
  destruct m as [f kw vs ed pl tl st [e fv er cov me int]].
  intros (Hf & Hfix & Htol & Hint). simpl in *. subst.
  unfold migrad, stalling_engine. cbn.
  unfold scripted_migrad. cbn. unfold is_fixed. cbn.
  change ("fix_" +:+ "s_x") with "fix_s_x". rewrite Hfix. cbn.
  eexists. split; [reflexivity|]. by repeat split.
Qed.

Lemma stalls_passes k m :
  passes (E := stalling_engine) k (minuit (self stalling_world)) = Ok m ->
  stalls m.
Proof.
  revert m. induction k as [|k IH]; intros m.
  - intros [= <-]. by vm_compute.
  - intros (m1 & Hk & Hlast)%passes_succ_inv.
    destruct (stalls_pass m1 (IH m1 Hk)) as (m' & Hpass & Hm' & _).
    rewrite Hpass in Hlast. by injection Hlast as <-.
Qed.

Lemma stalling_never_converges :
  never_converges (E := stalling_engine) (self stalling_world).
Proof.
  intros k m Hk.
  destruct (stalls_pass m (stalls_passes k m Hk)) as (m' & Hpass & Hm' & Hedm).
  exists m'. split; [done|].
  destruct Hm' as (_ & _ & Htol & _).
  unfold _migrad_has_converged. cbn [minuit with_minuit].
  by rewrite Hedm, Htol.
Qed.

End StallingSample.

Lemma minimize_exhausts_retry_budget_witness :
  exists m,
    passes 10 (MinuitMinimizer.minuit (MinuitMinimizer.self stalling_world))
    = Ok m /\
    MinuitMinimizer.minimize stalling_world
    = (Ok (Some [], Some FIT_FAILED),
       MinuitMinimizer.mkWorld
         (MinuitMinimizer.with_minuit (MinuitMinimizer.self stalling_world) m)
         (repeat EvMigrad 10
          ++ [EvPrint MinuitMinimizer.not_converged_message])) /\
    FIT_FAILED = 1e12.
Proof.
  exact (minimize_exhausts_retry_budget stalling_world stalling_never_converges).
Defined.

(** ** Reasoning about methods *)

Section Methods.
Context {E : Engine}.
Import MinuitMinimizer.

Lemma bind_ok_inv {A B} (c : M A) (k : A -> M B) w r w' :
  (c ≫= k) w = (Ok r, w') ->
  exists a w1, c w = (Ok a, w1) /\ k a w1 = (Ok r, w').
Proof.
  unfold mbind, M_bind. destruct (c w) as [[a|e] w1]; [|done].
  intros Hk. by exists a, w1.
Qed.

Lemma lift_ok_inv {A} (r : result A) w a w' :
  lift r w = (Ok a, w') -> r = Ok a /\ w' = w.
Proof. unfold lift. by intros [= -> ->]. Qed.

Lemma rbind_ok_inv {A B} (c : result A) (k : A -> result B) r :
  c ≫= k = Ok r -> exists a, c = Ok a /\ k a = Ok r.
Proof. destruct c as [a|e]; [|done]. intros Hk. by exists a. Qed.

Lemma same_binding_refl (s : t) : same_binding s s.
Proof. by repeat split. Qed.

Lemma same_binding_trans (s0 s1 s2 : t) :
  same_binding s0 s1 -> same_binding s1 s2 -> same_binding s0 s2.
Proof.
  intros (?&?&?&?&?&?&?) (?&?&?&?&?&?&?). repeat split; congruence.
Qed.

Lemma same_binding_with_minuit (s : t) vs n :
  same_binding s (with_minuit s (set_num (minuit s) vs n)).
Proof. by repeat split. Qed.

Lemma keys_insert_value (ps : odict Par) i k par v :
  ps !! i = Some (k, par) ->
  keys (<[i := (k, set_value par v)]> ps) = keys ps.
Proof.
  intros Hi. unfold keys. rewrite list_fmap_insert. simpl. apply list_insert_id.
  by rewrite list_lookup_fmap, Hi.
Qed.

(** [_restore_best_fit] writes values only: the binding and the trace stay. *)
Lemma restore_loop_binding todo : forall i w r w',
  restore_loop i todo w = (r, w') ->
  same_binding (self w) (self w') /\ trace w' = trace w.
Proof.
  induction todo as [|k rest IH]; intros i w r w'.
  - intros [= <- <-]. split; [apply same_binding_refl|done].
  - cbn [restore_loop]. unfold mbind at 1, M_bind at 1, get_self at 1.
    unfold mbind at 1, M_bind at 1, lift at 1.
    destruct (best_fit_item (self w) k) as [v|e].
    + unfold mbind at 1, M_bind at 1, put_self at 1.
      intros Hrest. apply IH in Hrest as [Hsame Htrace]. cbn in Htrace.
      split; [|done].
      eapply same_binding_trans; [|exact Hsame]. cbn [self].
      repeat split; try done. cbn.
      destruct (parameters (self w) !! i) as [[k' par]|] eqn:Hi; [|done].
      by apply keys_insert_value.
    + intros [= <- <-]. split; [apply same_binding_refl|done].
Qed.

Lemma restore_best_fit_binding w r w' :
  _restore_best_fit w = (r, w') ->
  same_binding (self w) (self w') /\ trace w' = trace w.
Proof. unfold _restore_best_fit, mbind, M_bind, get_self. apply restore_loop_binding. Qed.

End Methods.

(** ** What [contours] sets up *)

Section Setup.
Context {E : Engine} {NP : Numpy}.
Import MinuitMinimizer.

Lemma steps_length is_log a b n l :
  steps is_log a b n = Ok l -> length l = Z.to_nat n.
Proof.
  unfold steps. destruct is_log.
  - intros (lo & _ & (hi & _ & Hl)%rbind_ok_inv)%rbind_ok_inv.
    by apply logspace_length in Hl.
  - apply linspace_length.
Qed.

Lemma contours_setup_inv param_1 min1 max1 n1 param_2 min2 max2 n2 options
    w s1 s2 cw w' :
  contours_setup param_1 min1 max1 n1 param_2 min2 max2 n2 options w
  = (Ok (s1, s2, cw), w') ->
  same_binding (self w) (self w') /\
  cw = worker_of (self w') param_1 param_2 /\
  length s1 = Z.to_nat n1 /\
  match param_2 with
  | None => s2 = [nan]
  | Some _ => exists n, n2 = Some n /\ length s2 = Z.to_nat n
  end.
Proof.
  unfold contours_setup.
  intros ([p1log p2log] & w1 & [_ ->]%lift_ok_inv & H)%bind_ok_inv.
  apply bind_ok_inv in H as (l1 & w2 & [Hs1 ->]%lift_ok_inv & H).
  apply bind_ok_inv in H as (l2 & w3 & [Hs2 ->]%lift_ok_inv & H).
  apply bind_ok_inv in H as (s & w4 & [= <- <-] & H).
  apply bind_ok_inv in H as ([] & w5 & Hrestore & H).
  apply bind_ok_inv in H as (s' & w6 & [= <- <-] & H).
  injection H as <- <- <- <-.
  split_and!.
  - destruct (_best_fit_parameters (self w)) as [[|??]|].
    + injection Hrestore as <-. apply same_binding_refl.
    + by apply restore_best_fit_binding in Hrestore as [? _].
    + injection Hrestore as <-. apply same_binding_refl.
  - done.
  - by apply steps_length in Hs1.
  - destruct param_2 as [p2|].
    + apply rbind_ok_inv in Hs2 as (lo & _ & Hs2).
      apply rbind_ok_inv in Hs2 as (hi & _ & Hs2).
      apply rbind_ok_inv in Hs2 as (n & Hn & Hs2).
      exists n. split; [by destruct n2; simplify_eq/=|].
      by apply steps_length in Hs2.
    + by injection Hs2 as <-.
Qed.

End Setup.

(** ** Errors before a fit, and the store after a failed fit *)

Section Store.
Context {E : Engine}.
Import MinuitMinimizer.

Lemma restore_without_best_fit (s : t) tr :
  _best_fit_parameters s = None -> parameters s <> [] ->
  _restore_best_fit (mkWorld s tr)
  = (Raise (TypeError "'NoneType' object has no attribute '__getitem__'"),
     mkWorld s tr).
Proof.
  intros Hnone Hne.
  unfold _restore_best_fit, mbind, M_bind, get_self. cbn [self].
  destruct (parameters s) as [|[k par] rest]; [done|].
  cbn [keys fmap list_fmap fst restore_loop].
  unfold mbind, M_bind, get_self, lift, best_fit_item, best_fit_parameters.
  cbn [self]. by rewrite Hnone.
Qed.

(** C2: on every freshly constructed binding with a non-empty registry,
    [get_errors] called before any [minimize] raises [TypeError] out of
    [_restore_best_fit]; the check that raises [CannotComputeErrors] is never
    reached. *)
Theorem get_errors_before_minimize_raises_TypeError
    function parameters ftol verbosity (s : t) :
  __init__ function parameters ftol verbosity = Ok s ->
  parameters <> [] ->
  get_errors (mkWorld s [])
  = (Raise (TypeError "'NoneType' object has no attribute '__getitem__'"),
     mkWorld s []) /\
  forall msg, (get_errors (mkWorld s [])).1 <> Raise (CannotComputeErrors msg).
Proof.
  intros Hinit Hne.
  apply init_inversion in Hinit as (_ & _ & Hps & _ & Hbf & _).
  assert (get_errors (mkWorld s [])
          = (Raise (TypeError "'NoneType' object has no attribute '__getitem__'"),
             mkWorld s [])) as Heq.
  { unfold get_errors. unfold mbind at 1, M_bind at 1.
    rewrite restore_without_best_fit; [done|done|by rewrite Hps]. }
  split; [done|]. intros msg. by rewrite Heq.
Qed.

End Store.

Lemma get_errors_before_minimize_raises_TypeError_witness :
  refit_minimizer = Ok (MinuitMinimizer.self refit_world) /\
  [("s.x", sample_par)] <> [] /\
  MinuitMinimizer.get_errors refit_world
  = (Raise (TypeError "'NoneType' object has no attribute '__getitem__'"),
     refit_world).
Proof.
  split; [reflexivity|]. split; [discriminate|].
  apply (get_errors_before_minimize_raises_TypeError
           quadratic_objective [("s.x", sample_par)]
           MinuitMinimizer.default_ftol MinuitMinimizer.default_verbosity
           (MinuitMinimizer.self refit_world)).
  - reflexivity.
  - discriminate.
Defined.

(** C3: a first [minimize] converges and stores x = 3 with minimum 0; a
    second [minimize] on the same binding fails and returns the empty mapping
    with [FIT_FAILED], yet the stored best fit and minimum still read as the
    values of the first call. *)
Theorem failed_minimize_leaves_stale_best_fit :
  let first := MinuitMinimizer.minimize refit_world in
  let second := MinuitMinimizer.minimize first.2 in
  first.1 = Ok (Some [("s.x", 3)], Some 0) /\
  second.1 = Ok (Some [], Some FIT_FAILED) /\
  MinuitMinimizer.best_fit_parameters (MinuitMinimizer.self second.2)
  = Some [("s.x", 3)] /\
  MinuitMinimizer.function_minimum_value (MinuitMinimizer.self second.2)
  = Some 0.
Proof. vm_compute. done. Qed.

(** ** The worker: what happens to a per-point minimization *)

Section WorkerOutcome.
Context {E : Engine}.

(** With a free parameter left, the worker runs one MIGRAD pass. *)
Lemma call_with_free_parameters (w : ContourWorker.t) v1 v2 m :
  ContourWorker.engine_for w v1 v2 = Ok m ->
  list_of_vary_param m <> [] ->
  ContourWorker.__call__ w (v1, v2)
  = match migrad m with
    | Raise _ => Ok FIT_FAILED
    | Ok after => Ok (fval after)
    end.
Proof.
  intros Hm Hfree. unfold ContourWorker.__call__. rewrite Hm. cbn.
  destruct (decide _) as [Hzero|]; [|done].
  by apply length_zero_iff_nil in Hzero.
Qed.

(** A pass that raises is contained: the cell holds [FIT_FAILED]. *)
Lemma call_contains_engine_exceptions (w : ContourWorker.t) v1 v2 m e :
  ContourWorker.engine_for w v1 v2 = Ok m ->
  list_of_vary_param m <> [] ->
  migrad m = Raise e ->
  ContourWorker.__call__ w (v1, v2) = Ok FIT_FAILED.
Proof.
  intros Hm Hfree Hraise.
  by rewrite (call_with_free_parameters w v1 v2 m), Hraise.
Qed.

(** A pass that returns is taken at its word: the cell holds the objective
    value the engine reached, whatever the distance to the minimum. *)
Lemma call_ignores_convergence (w : ContourWorker.t) v1 v2 m after :
  ContourWorker.engine_for w v1 v2 = Ok m ->
  list_of_vary_param m <> [] ->
  migrad m = Ok after ->
  ContourWorker.__call__ w (v1, v2) = Ok (fval after).
Proof.
  intros Hm Hfree Hpass.
  by rewrite (call_with_free_parameters w v1 v2 m), Hpass.
Qed.

End WorkerOutcome.

(** C4: a profile of [s.x] on a binding whose per-point passes return
    without converging (estimated distance 1000, threshold 0.1).  The point
    x = 2 is not recorded as [FIT_FAILED]: the worker returns the value 72
    the engine stopped at, and the whole contour holds such values. *)
Theorem unconverged_grid_point_is_not_marked_failed :
  let w := worker_of (E := loose_engine) (MinuitMinimizer.self plane_world)
             "s.x" None in
  (exists m after : Minuit (Core (Engine := loose_engine)),
     ContourWorker.engine_for (E := loose_engine) w 2 nan = Ok m /\
     migrad (E := loose_engine) m = Ok after /\
     PrimFloat.leb (edm after) (0.002 * tol after * 0.5) = false /\
     ContourWorker.__call__ (E := loose_engine) w (2, nan) = Ok (fval after) /\
     fval after = 72) /\
  PrimFloat.eqb 72 FIT_FAILED = false /\
  (MinuitMinimizer.contours (NP := sample_numpy) "s.x" 0 4 3
     None None None None true MinuitMinimizer.no_options [] plane_world).1
  = Ok ([0; 2; 4], Some [nan], [[70]; [72]; [74]]).
Proof.
  split; [|by vm_compute].
  eexists _, _. split_and!; [by vm_compute| by vm_compute |..]; by vm_compute.
Qed.

(** ** The triple [contours] returns *)

Section ContourResult.
Context {E : Engine} {NP : Numpy}.
Import MinuitMinimizer.

(** [contours], once the setup has run. *)
Lemma contours_inv param_1 min1 max1 n1 param_2 min2 max2 n2 progress options
    ticks w s1 second mat w' :
  contours param_1 min1 max1 n1 param_2 min2 max2 n2 progress options ticks w
  = (Ok (s1, second, mat), w') ->
  exists s2 cw w1 results,
    contours_setup param_1 min1 max1 n1 param_2 min2 max2 n2 options w
    = (Ok (s1, s2, cw), w1) /\
    contours_compute (default false (opt_parallel options)) progress cw
      (cartesian s1 s2) ticks w1 = (Ok results, w') /\
    reshape results (length s1) (length s2) = Ok mat /\
    second = Some s2.
Proof.
  unfold contours.
  intros ([[l1 l2] cw] & w1 & Hsetup & H)%bind_ok_inv.
  apply bind_ok_inv in H as (results & w2 & Hcompute & H).
  apply bind_ok_inv in H as (matrix & w3 & [Hreshape ->]%lift_ok_inv & H).
  injection H as <- <- <- <-.
  by exists l2, cw, w1, results.
Qed.

(** C5: when only one parameter is scanned, the second component of the
    triple [contours] returns is the one-element array holding not-a-number,
    not [None]. *)
Theorem one_parameter_contour_returns_nan_array param_1 min1 max1 n1
    min2 max2 n2 progress options ticks w s1 second mat w' :
  contours param_1 min1 max1 n1 None min2 max2 n2 progress options ticks w
  = (Ok (s1, second, mat), w') ->
  second = Some [nan] /\ second <> None.
Proof.
  intros (s2 & cw & w1 & results & Hsetup & _ & _ & ->)%contours_inv.
  apply contours_setup_inv in Hsetup as (_ & _ & _ & ->). done.
Qed.

End ContourResult.

Lemma one_parameter_contour_returns_nan_array_witness :
  exists w',
    MinuitMinimizer.contours (NP := sample_numpy) "s.x" 0 4 3
      None None None None true MinuitMinimizer.no_options [] plane_world
    = (Ok ([0; 2; 4], Some [nan], [[70]; [72]; [74]]), w') /\
    Some [nan] <> @None (list float).
Proof.
  eexists. split; [by vm_compute|].
  refine (proj2 (one_parameter_contour_returns_nan_array (NP := sample_numpy)
                   "s.x" 0 4 3 None None None true MinuitMinimizer.no_options
                   [] plane_world [0; 2; 4] (Some [nan]) [[70]; [72]; [74]] _ _)).
  by vm_compute.
Defined.

(** ** The engines of the grid points *)

Section GridPointEngine.
Context {E : Engine}.


(** Engine names that come from dotted identities are never the keyword
    [errordef]. *)
Lemma dotted_name_not_errordef (parameter : string) :
  has_char "." parameter = true ->
  _parameter_name_to_minuit_name parameter <> "errordef".
Proof.
  intros Hdot Heq.
  assert (has_char "_" (_parameter_name_to_minuit_name parameter) = true) as Hus.
  { clear Heq. unfold _parameter_name_to_minuit_name.
    induction parameter as [|c rest IH]; [done|]. simpl in *.
    destruct (Ascii.eqb_spec c "."); [done|].
    simpl in Hdot. rewrite (IH Hdot). by rewrite orb_true_r. }
  by rewrite Heq in Hus.
Qed.


Lemma engine_for_inv (w : ContourWorker.t) v1 v2 m :
  ContourWorker.engine_for w v1 v2 = Ok m ->
  exists kw,
    ContourWorker.this_args w v1 v2 = Ok kw /\
    kwargs m = kw /\
    fcn m = ContourWorker._function w /\
    tol m = 100 /\
    errordef m = match kw !! "errordef" with
                 | Some (PyFloat u) => u
                 | _ => default_errordef
                 end.
Proof.
  unfold ContourWorker.engine_for.
  intros (kw & Hargs & Hnew)%rbind_ok_inv. exists kw. split; [done|].
  unfold ContourWorker._create_new_minuit_object in Hnew.
  apply rbind_ok_inv in Hnew as (m0 & Hnew & [= <-]).
  unfold Minuit_new in Hnew.
  apply rbind_ok_inv in Hnew as (n & _ & [= <-]). done.
Qed.



(** C10: the engine the worker creates for a grid point has tolerance 100,
    whatever the tolerance [ftol] of the binding the contour is made for; it
    is on this engine that the pass of the grid point runs. *)
Theorem grid_point_engine_has_tolerance_100 (s : MinuitMinimizer.t)
    (param_1 : string) (param_2 : option string) v1 v2 (m : Minuit Core) :
  ContourWorker.engine_for (worker_of s param_1 param_2) v1 v2 = Ok m ->
  tol m = 100 /\
  (list_of_vary_param m <> [] ->
   ContourWorker.__call__ (worker_of s param_1 param_2) (v1, v2)
   = match migrad m with
     | Raise _ => Ok FIT_FAILED
     | Ok after => Ok (fval after)
     end).
Proof.
  intros Hm. split.
  - by apply engine_for_inv in Hm as (kw & _ & _ & _ & Htol & _).
  - intros Hfree. by apply call_with_free_parameters.
Qed.

End GridPointEngine.


Lemma grid_point_engine_has_tolerance_100_witness :
  exists m : Minuit (Core (Engine := loose_engine)),
    ContourWorker.engine_for (E := loose_engine)
      (worker_of (MinuitMinimizer.self plane_world) "s.x" None) 2 nan = Ok m /\
    MinuitMinimizer.ftol (MinuitMinimizer.self plane_world) = 1000 /\
    tol m = 100.
Proof.
  eexists. split; [by vm_compute|]. split; [reflexivity|].
  refine (proj1 (grid_point_engine_has_tolerance_100 (E := loose_engine)
                   (MinuitMinimizer.self plane_world) "s.x" None 2 nan _ _)).
  by vm_compute.
Defined.


(** ** The corner case without free parameters *)

Section NoFreeParameter.
Context {E : Engine}.

Lemma never_fixed_insert d k v :
  v <> PyBool true -> never_fixed d -> never_fixed (<[k := v]> d).
Proof.
  intros Hv Hd k'. rewrite lookup_insert. case_decide; [congruence|apply Hd].
Qed.

Lemma never_fixed_delete d k : never_fixed d -> never_fixed (delete k d).
Proof.
  intros Hd k'. rewrite lookup_delete. case_decide; [done|apply Hd].
Qed.

Lemma never_fixed_init parameters : forall acc,
  never_fixed acc.1 ->
  never_fixed (fold_left MinuitMinimizer.init_step parameters acc).1.
Proof.
  induction parameters as [|[k par] ps IH]; intros acc Hacc; [done|].
  simpl. apply IH. simpl. by repeat apply never_fixed_insert.
Qed.

Lemma never_fixed_fitarg {C} (m : Minuit C) :
  never_fixed (kwargs m) -> never_fixed (fitarg m).
Proof.
  intros Hkw. unfold fitarg.
  assert (never_fixed (delete "errordef" (delete "print_level" (kwargs m))))
    as Hbase by by do 2 apply never_fixed_delete.
  revert Hbase. generalize (delete "errordef" (delete "print_level" (kwargs m))).
  induction (arg_names (fcn m)) as [|n names IH]; intros d Hd; [done|].
  simpl. apply IH.
  destruct (values m !! n), (n_errors (num m) !! n);
    by repeat apply never_fixed_insert.
Qed.

Lemma never_fixed_worker_args function vs args p1 p2 n2p :
  never_fixed args ->
  never_fixed
    (ContourWorker._minuit_args
       (ContourWorker.__init__ function vs args p1 p2 n2p)).
Proof.
  intros Hargs. cbn [ContourWorker._minuit_args ContourWorker.__init__].
  do 2 (apply never_fixed_insert; [done|]).
  apply (map_fold_weak_ind (fun r _ => never_fixed r)); [done|].
  intros i x _ r _ Hr. by apply never_fixed_insert.
Qed.

(** After pinning, exactly the scrutinized variables are fixed. *)
Lemma fix_parameters_fixed names : forall (args kw : gmap string pyval) n,
  ContourWorker.fix_parameters names args = Ok kw ->
  kw !! ("fix_" +:+ n) = Some (PyBool true) ->
  Some n ∈ names \/ args !! ("fix_" +:+ n) = Some (PyBool true).
Proof.
  induction names as [|[name|] rest IH]; intros args kw n; simpl.
  - intros [= <-]. by right.
  - destruct (decide _); [|done]. intros Hfix Hn.
    destruct (IH _ _ _ Hfix Hn) as [Hin|Hargs]; [left; by right|].
    rewrite lookup_insert in Hargs. case_decide as Heq; [|by right].
    apply (inj (String.append "fix_")) in Heq as ->. left. by left.
  - intros Hfix Hn.
    destruct (IH _ _ _ Hfix Hn) as [Hin|Hargs]; [left; by right|by right].
Qed.

Lemma fix_parameters_ok (args : gmap string pyval) n1 n2 v1 v2 :
  ContourWorker.fix_parameters [Some n1; Some n2]
    (<[n2 := PyFloat v2]> (<[n1 := PyFloat v1]> args))
  = Ok (<["fix_" +:+ n2 := PyBool true]>
          (<["fix_" +:+ n1 := PyBool true]>
             (<[n2 := PyFloat v2]> (<[n1 := PyFloat v1]> args)))).
Proof.
  simpl.
  destruct (decide _) as [_|Hno].
  2:{ exfalso. apply Hno. rewrite lookup_insert. case_decide; [done|].
      by rewrite lookup_insert_eq. }
  destruct (decide _) as [_|Hno]; [done|].
  exfalso. apply Hno. rewrite lookup_insert. case_decide; [done|].
  by rewrite lookup_insert_eq.
Qed.

Lemma two_element_list {A} (l : list A) (a b : A) :
  NoDup l -> a ∈ l -> b ∈ l -> a <> b ->
  (forall x, x ∈ l -> x = a \/ x = b) ->
  l = [a; b] \/ l = [b; a].
Proof.
  intros Hnd Ha Hb Hne Hall.
  destruct l as [|x [|y [|z l]]].
  - by apply elem_of_nil in Ha.
  - apply list_elem_of_singleton in Ha, Hb. congruence.
  - apply elem_of_cons in Ha as [Ha|Ha%list_elem_of_singleton];
      apply elem_of_cons in Hb as [Hb|Hb%list_elem_of_singleton];
      subst; auto; done.
  - exfalso.
    assert (x <> y /\ x <> z /\ y <> z) as (Hxy & Hxz & Hyz).
    { apply NoDup_cons in Hnd as [Hx Hnd]. apply NoDup_cons in Hnd as [Hy _].
      apply not_elem_of_cons in Hx as [? Hx]. apply not_elem_of_cons in Hx as [? _].
      by apply not_elem_of_cons in Hy as [? _]. }
    assert (x = a \/ x = b) as Hxab by (apply Hall; by left).
    assert (y = a \/ y = b) as Hyab by (apply Hall; right; by left).
    assert (z = a \/ z = b) as Hzab by (apply Hall; right; right; by left).
    destruct Hxab, Hyab, Hzab; congruence.
Qed.

Lemma never_fixed_constructed function parameters ftol verbosity
    (s0 s : MinuitMinimizer.t) :
  MinuitMinimizer.__init__ function parameters ftol verbosity = Ok s0 ->
  same_binding s0 s ->
  never_fixed (kwargs (MinuitMinimizer.minuit s)).
Proof.
  intros Hinit Hsame.
  apply init_inversion in Hinit as (_&_&_&_&_&_&_&_& Hkw &_).
  destruct Hsame as (_&_&_&_& -> &_). rewrite Hkw.
  do 2 (apply never_fixed_insert; [done|]).
  by apply never_fixed_init.
Qed.

Lemma vary_nil_all_fixed {C} (m : Minuit C) n :
  length (list_of_vary_param m) = 0%nat ->
  n ∈ arg_names (fcn m) ->
  kwargs m !! ("fix_" +:+ n) = Some (PyBool true).
Proof.
  intros Hzero%length_zero_iff_nil Hn. unfold list_of_vary_param in Hzero.
  assert (is_fixed m n = true) as Hfixed.
  { destruct (is_fixed m n) eqn:Hf; [done|].
    assert (n ∈ filter (fun n => is_fixed m n = false) (arg_names (fcn m)))
      as Hin by by apply list_elem_of_filter.
    rewrite Hzero in Hin. by apply elem_of_nil in Hin. }
  unfold is_fixed in Hfixed.
  by destruct (kwargs m !! ("fix_" +:+ n)) as [[| [] | | |]|].
Qed.

Lemma positions_of_two (a b : string) :
  fold_left (fun (d : gmap string nat) ik => <[ik.2 := ik.1]> d)
    (MinuitMinimizer.enumerate [a; b]) ∅
  = <[b := 1%nat]> (<[a := 0%nat]> ∅).
Proof. reflexivity. Qed.

(** C6: a two-parameter grid point whose pinning leaves no free parameter is
    evaluated directly, each pinned value in the positional slot its
    parameter has in the registry: [f(v1, v2)] when the parameters were
    requested in declaration order, [f(v2, v1)] when they were requested in
    the opposite order. *)
Theorem no_free_parameter_evaluates_in_declared_order
    function parameters ftol verbosity (s0 s : MinuitMinimizer.t)
    param_1 param_2 v1 v2 (m : Minuit Core) :
  MinuitMinimizer.__init__ function parameters ftol verbosity = Ok s0 ->
  same_binding s0 s ->
  param_1 ∈ keys parameters -> param_2 ∈ keys parameters ->
  param_1 <> param_2 ->
  ContourWorker.engine_for (worker_of s param_1 (Some param_2)) v1 v2 = Ok m ->
  length (list_of_vary_param m) = 0%nat ->
  (keys parameters = [param_1; param_2] /\
   ContourWorker.__call__ (worker_of s param_1 (Some param_2)) (v1, v2)
   = function [v1; v2]) \/
  (keys parameters = [param_2; param_1] /\
   ContourWorker.__call__ (worker_of s param_1 (Some param_2)) (v1, v2)
   = function [v2; v1]).
Proof.
  intros Hinit Hsame Hp1 Hp2 Hne Hm Hzero.
  pose proof (never_fixed_constructed _ _ _ _ _ _ Hinit Hsame) as Hnever.
  apply init_inversion in Hinit as (Hnd & Hf0 &_&_&_&_& Hpos0 &_).
  destruct Hsame as (Hf & Hpos &_).
  set (n1 := _parameter_name_to_minuit_name param_1) in *.
  set (n2 := _parameter_name_to_minuit_name param_2) in *.
  set (w := worker_of s param_1 (Some param_2)) in *.
  assert (ContourWorker._function w
          = mkObjFun (_parameter_name_to_minuit_name <$> keys parameters)
              function) as Hfun by (by rewrite <- Hf0, <- Hf).
  assert (ContourWorker.name_to_position w
          = fold_left (fun d ik => <[ik.2 := ik.1]> d)
              (MinuitMinimizer.enumerate
                 (_parameter_name_to_minuit_name <$> keys parameters)) ∅)
    as Hposw by (by rewrite <- Hpos0, <- Hpos).
  assert (n1 <> n2) as Hn12.
  { intros Heq. apply Hne. by eapply (fmap_NoDup_injective _ _ _ _ Hnd). }
  (* every declared variable is one of the two pinned ones *)
  assert (forall k, k ∈ keys parameters -> k = param_1 \/ k = param_2) as Hall.
  { intros k Hk.
    pose proof Hm as (kw & Hargs & Hkw & Hfcn & _)%engine_for_inv.
    assert (kw !! ("fix_" +:+ _parameter_name_to_minuit_name k)
            = Some (PyBool true)) as Hfixed.
    { rewrite <- Hkw. apply vary_nil_all_fixed; [done|].
      rewrite Hfcn, Hfun. by apply list_elem_of_fmap_2. }
    unfold ContourWorker.this_args in Hargs.
    destruct (fix_parameters_fixed _ _ _ _ Hargs Hfixed) as [Hin|Hbase].
    - apply elem_of_cons in Hin as [Hin|Hin%list_elem_of_singleton].
      + left. injection Hin as Hin.
        by eapply (fmap_NoDup_injective _ _ _ _ Hnd).
      + right. injection Hin as Hin.
        by eapply (fmap_NoDup_injective _ _ _ _ Hnd).
    - assert (never_fixed
                (<[n2 := PyFloat v2]>
                   (<[ContourWorker.minuit_param_1 w := PyFloat v1]>
                      (ContourWorker._minuit_args w)))) as Hnf.
      { apply never_fixed_insert; [discriminate|].
        apply never_fixed_insert; [discriminate|].
        apply never_fixed_worker_args. by apply never_fixed_fitarg. }
      by apply Hnf in Hbase. }
  assert (ContourWorker.__call__ w (v1, v2)
          = (i1 ← ContourWorker.position w n1;
             this_variables ← ContourWorker.set_item [0; 0] i1 v1;
             i2 ← ContourWorker.position w n2;
             this_variables ← ContourWorker.set_item this_variables i2 v2;
             call (ContourWorker._function w) this_variables)) as Hcall.
  { unfold ContourWorker.__call__. rewrite Hm. cbn [mbind result_bind].
    by destruct (decide _). }
  rewrite Hcall. unfold ContourWorker.position. rewrite Hposw, Hfun.
  destruct (two_element_list (keys parameters) param_1 param_2) as [Hk|Hk];
    [by apply NoDup_fmap_1 in Hnd|done|done|done|done|..];
    rewrite Hk; [left|right]; (split; [done|]).
  - change (_parameter_name_to_minuit_name <$> [param_1; param_2])
      with [n1; n2].
    rewrite positions_of_two.
    assert ((<[n2 := 1%nat]> (<[n1 := 0%nat]> ∅) : gmap string nat) !! n1
            = Some 0%nat) as ->
      by (rewrite lookup_insert_ne by (by apply not_eq_sym);
          apply lookup_insert_eq).
    assert ((<[n2 := 1%nat]> (<[n1 := 0%nat]> ∅) : gmap string nat) !! n2
            = Some 1%nat) as -> by apply lookup_insert_eq.
    reflexivity.
  - change (_parameter_name_to_minuit_name <$> [param_2; param_1])
      with [n2; n1].
    rewrite positions_of_two.
    assert ((<[n1 := 1%nat]> (<[n2 := 0%nat]> ∅) : gmap string nat) !! n1
            = Some 1%nat) as -> by apply lookup_insert_eq.
    assert ((<[n1 := 1%nat]> (<[n2 := 0%nat]> ∅) : gmap string nat) !! n2
            = Some 0%nat) as ->
      by (rewrite lookup_insert_ne by done; apply lookup_insert_eq).
    reflexivity.
Qed.

End NoFreeParameter.

Lemma no_free_parameter_evaluates_in_declared_order_witness :
  keys [("s.x", sample_par); ("s.y", sample_par)] = ["s.x"; "s.y"] /\
  ContourWorker.__call__ (E := loose_engine)
    (worker_of (MinuitMinimizer.self plane_world) "s.y" (Some "s.x")) (5, 2)
  = plane_objective [2; 5].
Proof.
  split; [reflexivity|].
  edestruct (no_free_parameter_evaluates_in_declared_order (E := loose_engine)
               plane_objective [("s.x", sample_par); ("s.y", sample_par)]
               MinuitMinimizer.default_ftol MinuitMinimizer.default_verbosity
               (MinuitMinimizer.self plane_world)
               (MinuitMinimizer.self plane_world) "s.y" "s.x" 5 2)
    as [[Hkeys _]|[_ Hcall]].
  - reflexivity.
  - repeat split; reflexivity.
  - right. by left.
  - by left.
  - discriminate.
  - by vm_compute.
  - by vm_compute.
  - discriminate Hkeys.
  - exact Hcall.
Defined.

(** ** Serial and parallel evaluation of the grid *)

Section Strategies.
Context {E : Engine}.
Import MinuitMinimizer.















End Strategies.

(** ** The result matrix *)

Section Matrix.
Context {E : Engine} {NP : Numpy}.
Import MinuitMinimizer.




Lemma cartesian_cons x (s1 s2 : list float) :
  cartesian (x :: s1) s2 = (pair x <$> s2) ++ cartesian s1 s2.
Proof.
  unfold cartesian. cbn. f_equal.
Qed.

Lemma cartesian_length (s1 s2 : list float) :
  length (cartesian s1 s2) = (length s1 * length s2)%nat.
Proof.
  induction s1 as [|x s1 IH]; [done|].
  rewrite cartesian_cons, length_app, length_fmap, IH. done.
Qed.





End Matrix.

(** * Further properties of the binding and of the worker *)

(** ** The retry loop stops at the first pass that converges *)

Section FirstConvergence.
Context {E : Engine}.
Import MinuitMinimizer.

Lemma passes_prefix (n j : nat) (m0 : Minuit Core) :
  is_ok (passes (n + j) m0) = true -> exists mx, passes j m0 = Ok mx.
Proof.
  induction n as [|n IH]; cbn [Nat.add].
  - destruct (passes j m0) as [mx|]; [by exists mx|done].
  - destruct (passes (S (n + j)) m0) as [my|] eqn:Hmy; [|done].
    intros _. apply passes_succ_inv in Hmy as (mz & Hmz & _).
    apply IH. by rewrite Hmz.
Qed.

(** When the [k]-th pass in a row is the first to meet the convergence
    criterion and the budget allows it, [_run_migrad] makes exactly [k]
    passes and stops on the engine that pass left; nothing but the engine
    changes. *)
Theorem run_migrad_stops_at_first_convergence (s0 : t) (trials k : nat) :
  forall (j : nat) (m mk : Minuit Core) (tr : list event),
    (1 <= k)%nat -> (k <= trials)%nat ->
    passes j (minuit s0) = Ok m ->
    passes (j + k) (minuit s0) = Ok mk ->
    (forall i mi, (j < i < j + k)%nat -> passes i (minuit s0) = Ok mi ->
                  _migrad_has_converged (with_minuit s0 mi) = false) ->
    _migrad_has_converged (with_minuit s0 mk) = true ->
    _run_migrad trials (mkWorld (with_minuit s0 m) tr)
    = (Ok tt, mkWorld (with_minuit s0 mk) (tr ++ repeat EvMigrad k)).
Proof.
  revert k. induction trials as [|trials IH]; intros k j m mk tr Hk1 Hk Hj Hjk
    Hbefore Hlast; [lia|].
  destruct k as [|k]; [lia|].
  assert (exists m1, migrad m = Ok m1 /\ passes (S j) (minuit s0) = Ok m1)
    as (m1 & Hpass & Hj1).
  { assert (exists mx, passes (S j) (minuit s0) = Ok mx) as [mx Hmx].
    { apply (passes_prefix k).
      replace (k + S j)%nat with (j + S k)%nat by lia. by rewrite Hjk. }
    exists mx. split; [|done].
    apply passes_succ_inv in Hmx as (m' & Hm' & Hpass). congruence. }
  rewrite run_migrad_step, (minuit_migrad_ok _ _ m1) by done.
  change (with_minuit (with_minuit s0 m) m1) with (with_minuit s0 m1).
  cbn [self repeat].
  destruct k as [|k].
  - replace (j + 1)%nat with (S j) in Hjk by lia.
    assert (mk = m1) as -> by congruence.
    by rewrite Hlast.
  - rewrite (Hbefore (S j) m1) by (done || lia).
    rewrite (IH (S k) (S j) m1 mk (tr ++ [EvMigrad])); try done; try lia.
    + by rewrite <- app_assoc.
    + by replace (S j + S k)%nat with (j + S (S k))%nat by lia.
    + intros i mi Hi. apply Hbefore. lia.
Qed.

End FirstConvergence.

Lemma run_migrad_stops_at_first_convergence_witness :
  MinuitMinimizer._run_migrad (E := refit_engine) 10 refit_world
  = (Ok tt,
     MinuitMinimizer.mkWorld
       (MinuitMinimizer.with_minuit (MinuitMinimizer.self refit_world)
          (from_ok
             (passes (E := refit_engine) 1
                (MinuitMinimizer.minuit (MinuitMinimizer.self refit_world)))
             eq_refl))
       [EvMigrad]).
Proof.
  refine (run_migrad_stops_at_first_convergence (E := refit_engine)
            (MinuitMinimizer.self refit_world) 10 1 0
            (MinuitMinimizer.minuit (MinuitMinimizer.self refit_world))
            _ [] _ _ _ _ _ _).
  - lia.
  - lia.
  - reflexivity.
  - by vm_compute.
  - intros i mi Hi. lia.
  - by vm_compute.
Defined.

(** ** Contours read the fit result, they never change it *)

Section ContoursKeepStore.
Context {E : Engine} {NP : Numpy}.
Import MinuitMinimizer.















(** The evaluation of the grid, serial or parallel, does not touch the
    object at all. *)
Theorem grid_evaluation_leaves_object_untouched parallel progress
    (cw : ContourWorker.t) grid ticks (w : World) :
  self (contours_compute parallel progress cw grid ticks w).2 = self w.
Proof.
  assert (forall A (c : M A),
            (forall w, self (c w).2 = self w) ->
            forall B (k : A -> M B),
              (forall a w, self (k a w).2 = self w) ->
              forall w, self ((c ≫= k) w).2 = self w) as Hbind.
  { intros A c Hc B k Hk w0. unfold mbind, M_bind.
    specialize (Hc w0). destruct (c w0) as [[a|e] w1]; [|done].
    by rewrite Hk. }
  unfold contours_compute. destruct parallel; cbn [negb].
  - revert w. apply Hbind.
    + generalize (Parallel.map_async grid).
      induction ticks as [|tick later IH]; intros amr w; cbn [poll];
        (destruct (Parallel.ready amr); [done|]).
      * done.
      * revert w. apply Hbind; [done|]. intros _. apply IH.
    + intros amr. apply Hbind; [done|]. intros results.
      apply Hbind; [done|]. intros _. by apply Hbind.
  - revert w. induction grid as [|args rest IH]; [done|].
    cbn [serial_map]. apply Hbind; [done|]. intros v.
    apply Hbind; [by destruct progress|]. intros _.
    by apply Hbind.
Qed.

End ContoursKeepStore.

(** ** The worker's own check of the scrutinized parameters *)

Section PinningCheck.
Context {E : Engine}.

(** The worker assigns the grid values to the scrutinized names before it
    checks that these names are among the keywords, so the check cannot
    fail: for every worker and every grid point, declared parameter or not,
    the keywords are built, the scrutinized names are flagged as fixed, and
    [ParameterIsNotFree] is not raised. *)
Theorem pinning_check_never_fails (w : ContourWorker.t) (v1 v2 : float) :
  exists kw,
    ContourWorker.this_args w v1 v2 = Ok kw /\
    kw !! ("fix_" +:+ ContourWorker.minuit_param_1 w) = Some (PyBool true) /\
    (forall p2, ContourWorker.minuit_param_2 w = Some p2 ->
                kw !! ("fix_" +:+ p2) = Some (PyBool true)) /\
    forall msg,
      ContourWorker.this_args w v1 v2 <> Raise (ParameterIsNotFree msg).
Proof.
  unfold ContourWorker.this_args.
  destruct (ContourWorker.minuit_param_2 w) as [p2|].
  - rewrite fix_parameters_ok. eexists. split; [reflexivity|]. split_and!.
    + rewrite lookup_insert. case_decide; [done|]. by rewrite lookup_insert_eq.
    + intros ? [= <-]. by rewrite lookup_insert_eq.
    + done.
  - cbn [ContourWorker.fix_parameters].
    destruct (decide _) as [_|Hno].
    2:{ exfalso. apply Hno. by rewrite lookup_insert_eq. }
    eexists. split; [reflexivity|]. split_and!.
    + by rewrite lookup_insert_eq.
    + done.
    + done.
Qed.

End PinningCheck.

(** ** The options and the baseline of a contour *)

Section ContourOptions.
Context {E : Engine} {NP : Numpy}.
Import MinuitMinimizer.

(** A [log] option that does not give one flag per scanned dimension is
    refused by the assertion before anything else happens: no step is
    generated, nothing is restored, nothing is printed. *)
Theorem contours_rejects_log_of_wrong_length param_1 min1 max1 n1 param_2
    min2 max2 n2 progress options ticks (w : World) flags :
  opt_log options = Some flags ->
  length flags <> match param_2 with None => 1%nat | Some _ => 2%nat end ->
  exists msg,
    contours param_1 min1 max1 n1 param_2 min2 max2 n2 progress options ticks w
    = (Raise (AssertionError msg), w).
Proof.
  intros Hlog Hlen. eexists.
  unfold contours, contours_setup. rewrite Hlog.
  destruct (decide _) as [Heq|_]; [done|]. reflexivity.
Qed.

(** Without a stored best fit (none yet, or an empty one) the setup of a
    contour warns once and goes on from the current values: the object is
    left as it is.  With a stored best fit no warning is given. *)
Theorem contours_setup_warns_without_best_fit param_1 min1 max1 n1 param_2
    min2 max2 n2 options (w : World) r w' :
  contours_setup param_1 min1 max1 n1 param_2 min2 max2 n2 options w
  = (Ok r, w') ->
  match _best_fit_parameters (self w) with
  | Some (_ :: _) => trace w' = trace w
  | _ => w' = mkWorld (self w) (trace w ++ [EvWarn no_best_fit_warning])
  end.
Proof.
  unfold contours_setup.
  intros ([p1log p2log] & w1 & [_ ->]%lift_ok_inv & H)%bind_ok_inv.
  apply bind_ok_inv in H as (l1 & w2 & [Hs1 ->]%lift_ok_inv & H).
  apply bind_ok_inv in H as (l2 & w3 & [Hs2 ->]%lift_ok_inv & H).
  apply bind_ok_inv in H as (s & w4 & [= <- <-] & H).
  apply bind_ok_inv in H as ([] & w5 & Hrestore & H).
  apply bind_ok_inv in H as (s' & w6 & [= <- <-] & H).
  injection H as <- <-.
  destruct (_best_fit_parameters (self w)) as [[|??]|].
  - by injection Hrestore as <-.
  - by apply restore_best_fit_binding in Hrestore as [_ ?].
  - by injection Hrestore as <-.
Qed.

End ContourOptions.

Lemma contours_rejects_log_of_wrong_length_witness :
  exists msg,
    MinuitMinimizer.contours (NP := sample_numpy) "s.x" 0 4 3 None None None
      None true (MinuitMinimizer.mkOptions (Some [false; true]) None) []
      plane_world
    = (Raise (AssertionError msg), plane_world).
Proof.
  apply (contours_rejects_log_of_wrong_length (NP := sample_numpy) "s.x" 0 4 3
           None None None None true
           (MinuitMinimizer.mkOptions (Some [false; true]) None) []
           plane_world [false; true]).
  - reflexivity.
  - simpl. lia.
Defined.

Lemma contours_setup_warns_without_best_fit_witness :
  exists r w',
    MinuitMinimizer.contours_setup (NP := sample_numpy) "s.x" 0 4 3 None None
      None None MinuitMinimizer.no_options plane_world = (Ok r, w') /\
    w' = MinuitMinimizer.mkWorld (MinuitMinimizer.self plane_world)
           [EvWarn MinuitMinimizer.no_best_fit_warning].
Proof.
  eexists _, _. split; [by vm_compute|].
  refine (contours_setup_warns_without_best_fit (NP := sample_numpy) "s.x" 0 4 3
            None None None None MinuitMinimizer.no_options plane_world _ _ _).
  by vm_compute.
Defined.

(** ** Restoring the best fit *)

Section Restore.
Context {E : Engine}.
Import MinuitMinimizer.

Lemma restore_loop_ok (d : odict float) (todo : odict Par) :
  forall (processed : odict Par) (s : t) tr,
    parameters s = processed ++ todo ->
    _best_fit_parameters s = Some d ->
    (forall k, k ∈ keys todo -> is_Some (od_get d k)) ->
    restore_loop (length processed) (keys todo) (mkWorld s tr)
    = (Ok tt,
       mkWorld
         (with_minuit
            (with_parameters s (processed ++ restored_parameters d todo))
            (set_values (minuit s)
               (restored_values d (keys todo) (values (minuit s)))))
         tr).
Proof.
  induction todo as [|[k par] todo IH]; intros processed s tr Hps Hbf Hall.
  - rewrite app_nil_r in Hps.
    destruct s as [? ? ? ? ? ? ? [] ? ?]. cbn in Hps. subst.
    unfold restored_parameters. cbn. by rewrite app_nil_r.
  - destruct (Hall k) as [v Hv]; [by left|].
    cbn [keys fmap list_fmap fst restore_loop].
    unfold mbind at 1, M_bind at 1, get_self at 1.
    unfold mbind at 1, M_bind at 1, lift at 1, best_fit_item at 1,
      best_fit_parameters at 1.
    cbn [self]. rewrite Hbf, Hv.
    unfold mbind at 1, M_bind at 1, put_self at 1. cbn [trace].
    rewrite Hps, list_lookup_middle by done.
    rewrite insert_app_r_alt, Nat.sub_diag by done.
    change (<[0%nat := (k, set_value par v)]> ((k, par) :: todo))
      with ((k, set_value par v) :: todo).
    specialize (IH (processed ++ [(k, set_value par v)])
                  (with_minuit
                     (with_parameters s
                        (processed ++ (k, set_value par v) :: todo))
                     (set_values (minuit s)
                        (<[_parameter_name_to_minuit_name k := v]>
                           (values (minuit s)))))
                  tr).
    rewrite length_app in IH. cbn [length] in IH.
    rewrite Nat.add_1_r in IH.
    change (fst <$> todo) with (keys todo).
    rewrite IH.
    + cbn. rewrite Hv. cbn. by rewrite <- app_assoc.
    + cbn. by rewrite <- app_assoc.
    + done.
    + intros k' Hk'. apply Hall. by right.
Qed.

(** With a stored best fit that covers the registry, [_restore_best_fit]
    returns normally, writes the stored values and leaves the trace alone. *)
Lemma restore_ok (d : odict float) (s : t) tr :
  _best_fit_parameters s = Some d ->
  (forall k, k ∈ keys (parameters s) -> is_Some (od_get d k)) ->
  _restore_best_fit (mkWorld s tr) = (Ok tt, mkWorld (restored d s) tr).
Proof.
  intros Hbf Hall.
  unfold _restore_best_fit, mbind, M_bind, get_self. cbn [self].
  exact (restore_loop_ok d (parameters s) [] s tr eq_refl Hbf Hall).
Qed.

(** A restore that returns normally found a value for every key. *)
Lemma restore_loop_covered todo : forall i w w',
  restore_loop i todo w = (Ok tt, w') ->
  forall k, k ∈ todo -> is_Some (best_fit_parameters (self w) ≫= fun d => od_get d k).
Proof.
  induction todo as [|k0 rest IH]; intros i w w' Hloop k Hk.
  - by apply elem_of_nil in Hk.
  - cbn [restore_loop] in Hloop.
    apply bind_ok_inv in Hloop as (s & w1 & [= <- <-] & Hloop).
    apply bind_ok_inv in Hloop as (v & w2 & [Hv ->]%lift_ok_inv & Hloop).
    apply bind_ok_inv in Hloop as ([] & w3 & [= <-] & Hloop).
    unfold best_fit_item in Hv.
    destruct (best_fit_parameters (self w)) as [d|] eqn:Hd; [|done].
    apply elem_of_cons in Hk as [->|Hk].
    + cbn. by destruct (od_get d k0).
    + apply (IH _ _ _ Hloop k) in Hk. cbn in Hk.
      unfold best_fit_parameters in *. cbn in Hk. by rewrite Hd in Hk.
Qed.

Lemma restored_parameters_keys d (ps : odict Par) :
  keys (restored_parameters d ps) = keys ps.
Proof.
  unfold keys, restored_parameters. rewrite <- list_fmap_compose.
  by apply list_fmap_ext.
Qed.

Lemma restored_parameters_idempotent d (ps : odict Par) :
  restored_parameters d (restored_parameters d ps) = restored_parameters d ps.
Proof.
  unfold restored_parameters. rewrite <- list_fmap_compose.
  apply list_fmap_ext. intros i [k par] _. cbn.
  by destruct (od_get d k).
Qed.

Lemma restored_values_lookup d ks : forall vs n,
  restored_values d ks vs !! n = last_write d n ks (vs !! n).
Proof.
  unfold restored_values, last_write.
  induction ks as [|k ks IH]; intros vs n; [done|].
  cbn [fold_left]. rewrite IH.
  destruct (od_get d k) as [v|]; [|done]. by rewrite lookup_insert.
Qed.

Lemma last_write_absorbs d n ks : forall acc,
  last_write d n ks (last_write d n ks acc) = last_write d n ks acc.
Proof.
  unfold last_write.
  induction ks as [|k ks IH]; intros acc; [done|]. cbn [fold_left].
  destruct (od_get d k) as [v|]; [|apply IH].
  case_decide; [done|apply IH].
Qed.

Lemma restored_values_idempotent d ks vs :
  restored_values d ks (restored_values d ks vs) = restored_values d ks vs.
Proof.
  apply map_eq. intros n. rewrite !restored_values_lookup.
  apply last_write_absorbs.
Qed.

Lemma restored_idempotent d (s : t) : restored d (restored d s) = restored d s.
Proof.
  change (restored d (restored d s))
    with (with_minuit
            (with_parameters (restored d s)
               (restored_parameters d (restored_parameters d (parameters s))))
            (set_values (minuit (restored d s))
               (restored_values d
                  (keys (restored_parameters d (parameters s)))
                  (restored_values d (keys (parameters s))
                     (values (minuit s)))))).
  by rewrite restored_parameters_idempotent, restored_parameters_keys,
    restored_values_idempotent.
Qed.

(** Restoring twice is restoring once: when [_restore_best_fit] returns
    normally, a second call right after it returns normally too and leaves
    the registry, the engine and the trace exactly as the first call left
    them. *)
Theorem restore_best_fit_twice (w w1 : World) :
  _restore_best_fit w = (Ok tt, w1) ->
  _restore_best_fit w1 = (Ok tt, w1).
Proof.
  intros Hfirst. destruct w as [s tr].
  destruct (keys (parameters s)) as [|k0 ks] eqn:Hkeys.
  { unfold _restore_best_fit, mbind, M_bind, get_self in *. cbn [self] in *.
    rewrite Hkeys in Hfirst. injection Hfirst as <-. cbn [self]. by rewrite Hkeys. }
  assert (exists d, _best_fit_parameters s = Some d /\
                    forall k, k ∈ keys (parameters s) -> is_Some (od_get d k))
    as (d & Hbf & Hall).
  { unfold _restore_best_fit, mbind, M_bind, get_self in Hfirst.
    cbn [self] in Hfirst.
    pose proof (restore_loop_covered _ _ _ _ Hfirst) as Hcov. cbn [self] in Hcov.
    unfold best_fit_parameters in Hcov.
    destruct (_best_fit_parameters s) as [d|].
    - exists d. split; [done|]. intros k Hk. by apply Hcov in Hk.
    - destruct (Hcov k0) as [? ?]; [rewrite Hkeys; by left|done]. }
  rewrite (restore_ok d) in Hfirst by done. injection Hfirst as <-.
  rewrite (restore_ok d).
  - by rewrite restored_idempotent.
  - done.
  - intros k Hk. apply Hall.
    change (parameters (restored d s))
      with (restored_parameters d (parameters s)) in Hk.
    by rewrite restored_parameters_keys in Hk.
Qed.

End Restore.

Lemma restore_best_fit_twice_witness :
  let fitted := (MinuitMinimizer.minimize refit_world).2 in
  let once := MinuitMinimizer._restore_best_fit fitted in
  once.1 = Ok tt /\
  MinuitMinimizer._restore_best_fit once.2 = (Ok tt, once.2).
Proof.
  cbn zeta. split; [by vm_compute|].
  apply (restore_best_fit_twice (E := refit_engine)
           (MinuitMinimizer.minimize refit_world).2).
  by vm_compute.
Defined.

(** ** Errors asked for on a fit that has not converged *)

Section ErrorsRefused.
Context {E : Engine}.
Import MinuitMinimizer.

Lemma restored_converged d (s : t) :
  _migrad_has_converged (restored d s) = _migrad_has_converged s.
Proof. done. Qed.

(** With a stored best fit that covers the registry and an engine whose last
    MIGRAD pass has not converged, [get_errors] restores the best fit, then
    raises [CannotComputeErrors] with its message; MINOS is not run, nothing
    is displayed, and the stored fit result stays. *)
Theorem get_errors_refuses_unconverged_fit (w : World) (d : odict float) :
  _best_fit_parameters (self w) = Some d ->
  (forall k, k ∈ keys (parameters (self w)) -> is_Some (od_get d k)) ->
  _migrad_has_converged (self w) = false ->
  get_errors w
  = (Raise (CannotComputeErrors
       "MIGRAD results not valid, cannot compute errors. Did you run the fit first ?"),
     mkWorld (restored d (self w)) (trace w)).
Proof.
  intros Hbf Hall Hnot. destruct w as [s tr]. cbn [self trace] in *.
  unfold get_errors. unfold mbind at 1, M_bind at 1.
  rewrite (restore_ok d) by done.
  unfold mbind at 1, M_bind at 1, get_self at 1. cbn [self].
  by rewrite restored_converged, Hnot.
Qed.

End ErrorsRefused.

Lemma get_errors_refuses_unconverged_fit_witness :
  let refused :=
    (MinuitMinimizer.minimize (MinuitMinimizer.minimize refit_world).2).2 in
  MinuitMinimizer._best_fit_parameters (MinuitMinimizer.self refused)
  = Some [("s.x", 3)] /\
  MinuitMinimizer._migrad_has_converged (MinuitMinimizer.self refused) = false /\
  MinuitMinimizer.get_errors refused
  = (Raise (CannotComputeErrors
       "MIGRAD results not valid, cannot compute errors. Did you run the fit first ?"),
     MinuitMinimizer.mkWorld
       (restored [("s.x", 3)] (MinuitMinimizer.self refused))
       (MinuitMinimizer.trace refused)).
Proof.
  cbn zeta. split; [by vm_compute|]. split; [by vm_compute|].
  apply (get_errors_refuses_unconverged_fit (E := refit_engine)).
  - by vm_compute.
  - intros k Hk. vm_compute in Hk.
    apply list_elem_of_singleton in Hk as ->. by exists 3.
  - by vm_compute.
Defined.

Lemma call_contains_engine_exceptions_witness :
  exists m : Minuit (Core (Engine := failing_engine)),
    ContourWorker.engine_for (E := failing_engine)
      (worker_of (MinuitMinimizer.self failing_world) "s.x" None) 2 nan = Ok m /\
    list_of_vary_param m = ["s_y"] /\
    migrad (E := failing_engine) m = Raise (EngineError 1) /\
    ContourWorker.__call__ (E := failing_engine)
      (worker_of (MinuitMinimizer.self failing_world) "s.x" None) (2, nan)
    = Ok FIT_FAILED.
Proof.
  eexists. split; [by vm_compute|]. split; [by vm_compute|].
  split; [by vm_compute|].
  eapply (call_contains_engine_exceptions (E := failing_engine)).
  - by vm_compute.
  - by vm_compute.
  - by vm_compute.
Defined.
